(** * Annotation engine of the design-QA review tool

    A shallow embedding of the interactive annotation engine of the
    [ReportDisplay] component, of the collaborator adapter in
    [services/geminiService.ts] ([runDesignQA]) and of the overlay code of the
    static export ([generateHtmlReport]), followed by the properties of the
    coordinate model, of the drawing and editing state machines and of the two
    renderers.

    Conventions of the embedding.
    - A JavaScript [number] is an exact rational ([Q]); equality of numbers is
      [Qeq].  Rounding of IEEE doubles is not modelled, and a division by a
      zero surface dimension (which JavaScript answers with [Infinity] or
      [NaN]) is kept out of the theorems by a hypothesis on the surface.
    - An array of annotations is a value with an allocation identity
      ([arr_id]): no code of the component writes into an existing array
      (every update builds a new array with a spread or [filter]), so an
      array is described by its identity and its contents.  Annotation
      objects and coordinate tuples are never written either and are plain
      values.
    - A React event handler is a closure of one render: it reads the state
      variables of that render ([issues], [editingIssueId], [editForm], ...),
      and so do the handlers it calls, which are closures of the same
      render.  A [setX(v)] call enqueues a value, a [setX(prev => ...)] call
      enqueues a function of the pending state; the queue is applied in order
      when the handler returns. *)

From Stdlib Require Import QArith Qminmax Qabs Lqa Lia.
From Stdlib Require Import List String Bool Arith NArith.
From Stdlib Require Import DecimalString DecimalN.
Import ListNotations.
Open Scope Q_scope.

(** ** Data model ([types.ts]) *)

Definition number := Q.

Inductive AnnotationType := box | arrow.

Inductive Severity := High | Medium | Low.

Inductive Side := design | live.

(** [[ymin, xmin, ymax, xmax]] or [[y1, x1, y2, x2]]. *)
Definition Coords : Type := (number * number * number * number)%type.

Record Annotation := mkAnnotation {
  type : AnnotationType;
  coords : Coords
}.

(** A JavaScript array of annotations: its allocation identity and its
    elements. *)
Record Arr := mkArr {
  arr_id : nat;
  elems : list Annotation
}.

Record Issue := mkIssue {
  id : string;
  title : string;
  description : string;
  box_2d : option (list number);
  design_box_2d : option (list number);
  liveAnnotations : Arr;
  designAnnotations : Arr;
  designReference : string;
  liveObservation : string;
  suggestion : string;
  severity : Severity;
  annotationType : option AnnotationType
}.

(** [Partial<Issue>]: every key may be absent. *)
Module Partial.
Record t := mk {
  id : option string;
  title : option string;
  description : option string;
  box_2d : option (list number);
  design_box_2d : option (list number);
  liveAnnotations : option Arr;
  designAnnotations : option Arr;
  designReference : option string;
  liveObservation : option string;
  suggestion : option string;
  severity : option Severity;
  annotationType : option AnnotationType
}.

(** The object literal [{}]. *)
Definition empty : t :=
  mk None None None None None None None None None None None None.

Definition set_title (v : string) (f : t) : t :=
  mk (id f) (Some v) (description f) (box_2d f) (design_box_2d f)
     (liveAnnotations f) (designAnnotations f) (designReference f)
     (liveObservation f) (suggestion f) (severity f) (annotationType f).

Definition set_description (v : string) (f : t) : t :=
  mk (id f) (title f) (Some v) (box_2d f) (design_box_2d f)
     (liveAnnotations f) (designAnnotations f) (designReference f)
     (liveObservation f) (suggestion f) (severity f) (annotationType f).

Definition set_severity (v : Severity) (f : t) : t :=
  mk (id f) (title f) (description f) (box_2d f) (design_box_2d f)
     (liveAnnotations f) (designAnnotations f) (designReference f)
     (liveObservation f) (suggestion f) (Some v) (annotationType f).

Definition set_annotationType (v : AnnotationType) (f : t) : t :=
  mk (id f) (title f) (description f) (box_2d f) (design_box_2d f)
     (liveAnnotations f) (designAnnotations f) (designReference f)
     (liveObservation f) (suggestion f) (severity f) (Some v).

Definition set_liveAnnotations (v : Arr) (f : t) : t :=
  mk (id f) (title f) (description f) (box_2d f) (design_box_2d f)
     (Some v) (designAnnotations f) (designReference f)
     (liveObservation f) (suggestion f) (severity f) (annotationType f).

Definition set_designAnnotations (v : Arr) (f : t) : t :=
  mk (id f) (title f) (description f) (box_2d f) (design_box_2d f)
     (liveAnnotations f) (Some v) (designReference f)
     (liveObservation f) (suggestion f) (severity f) (annotationType f).
End Partial.

(** [a || b] on an optional key. *)
Definition orElse {A : Type} (o : option A) (d : A) : A :=
  match o with Some a => a | None => d end.

(** The spread [{ ...issue }]: every key of a full record is present, the two
    optional ones only when the record has them. *)
Definition spreadIssue (issue : Issue) : Partial.t :=
  Partial.mk (Some (id issue)) (Some (title issue)) (Some (description issue))
    (box_2d issue) (design_box_2d issue)
    (Some (liveAnnotations issue)) (Some (designAnnotations issue))
    (Some (designReference issue)) (Some (liveObservation issue))
    (Some (suggestion issue)) (Some (severity issue)) (annotationType issue).

(** The spread [{ ...i, ...editForm } as Issue]: a key of [editForm] wins over
    the same key of [i]. *)
Definition mergeIssue (i : Issue) (f : Partial.t) : Issue :=
  mkIssue
    (orElse (Partial.id f) (id i))
    (orElse (Partial.title f) (title i))
    (orElse (Partial.description f) (description i))
    (match Partial.box_2d f with Some b => Some b | None => box_2d i end)
    (match Partial.design_box_2d f with
     | Some b => Some b | None => design_box_2d i end)
    (orElse (Partial.liveAnnotations f) (liveAnnotations i))
    (orElse (Partial.designAnnotations f) (designAnnotations i))
    (orElse (Partial.designReference f) (designReference i))
    (orElse (Partial.liveObservation f) (liveObservation i))
    (orElse (Partial.suggestion f) (suggestion i))
    (orElse (Partial.severity f) (severity i))
    (match Partial.annotationType f with
     | Some k => Some k | None => annotationType i end).

(** ** Region coordinate model *)

(** [getBoundingClientRect()] of the surface the event fired on. *)
Record DOMRect := mkRect {
  rect_left : number;
  rect_top : number;
  rect_width : number;
  rect_height : number
}.

Record MouseEvent := mkMouseEvent {
  clientX : number;
  clientY : number;
  currentTargetRect : DOMRect
}.

Record Point := mkPoint { px : number; py : number }.

Record DragStart := mkDragStart {
  ds_x : number;
  ds_y : number;
  ds_type : Side
}.

Definition Qltb (a b : number) : bool := negb (Qle_bool b a).

(** [(raw / dimension) * 1000], the conversion of [handleMouseUp], for a
    [dimension] that is not zero: JavaScript divides by zero to [Infinity] or
    [NaN], which a rational has not, so the theorems on this conversion
    assume a surface of positive size. *)
Definition toNormalized (raw dimension : number) : number :=
  (raw / dimension) * 1000.

(** Degenerate-box test: all four components [=== 0]. *)
Definition isDegenerate (c : Coords) : bool :=
  let '(c1, c2, c3, c4) := c in
  Qeq_bool c1 0 && Qeq_bool c2 0 && Qeq_bool c3 0 && Qeq_bool c4 0.

(** A CSS geometry descriptor; the four numbers are percentages of the
    surface ([`${v}%`]). *)
Inductive Style :=
| DisplayNone
| BoxStyle (top left height width : number).

Definition getStyleFromBox (b : Coords) : Style :=
  let '(ymin, xmin, ymax, xmax) := b in
  if Qeq_bool ymin 0 && Qeq_bool xmin 0 && Qeq_bool ymax 0 && Qeq_bool xmax 0
  then DisplayNone
  else BoxStyle (ymin / 10) (xmin / 10) ((ymax - ymin) / 10) ((xmax - xmin) / 10).

(** The clamping of [handleMouseMove]. *)
Definition clampedX (e : MouseEvent) : number :=
  let rect := currentTargetRect e in
  Qmax 0 (Qmin (clientX e - rect_left rect) (rect_width rect)).

Definition clampedY (e : MouseEvent) : number :=
  let rect := currentTargetRect e in
  Qmax 0 (Qmin (clientY e - rect_top rect) (rect_height rect)).

(** The click threshold of [handleMouseUp]. *)
Definition belowThreshold (ds : DragStart) (cd : Point) : bool :=
  Qltb (Qabs (ds_x ds - px cd)) 5 && Qltb (Qabs (ds_y ds - py cd)) 5.

(** [newCoords] of [handleMouseUp]. *)
Definition newCoords (rect : DOMRect) (ds : DragStart) (cd : Point)
    (annType : AnnotationType) : Coords :=
  let startX := toNormalized (ds_x ds) (rect_width rect) in
  let startY := toNormalized (ds_y ds) (rect_height rect) in
  let endX := toNormalized (px cd) (rect_width rect) in
  let endY := toNormalized (py cd) (rect_height rect) in
  match annType with
  | arrow => (startY, startX, endY, endX)
  | box => (Qmin startY endY, Qmin startX endX,
            Qmax startY endY, Qmax startX endX)
  end.

(** [newAnnotation] of [handleMouseUp]. *)
Definition newAnnotation (rect : DOMRect) (ds : DragStart) (cd : Point)
    (annType : AnnotationType) : Annotation :=
  mkAnnotation annType (newCoords rect ds cd annType).

(** ** Component state and event handlers ([ReportDisplay]) *)

Record HoveredAnnotation := mkHovered {
  hov_id : string;
  hov_index : nat;
  hov_type : Side
}.

(** The [useState] cells of the component, and the allocation counter of the
    annotation arrays. *)
Record State := mkState {
  issues : list Issue;
  hoveredIssueId : option string;
  selectedIssueId : option string;
  hoveredAnnotation : option HoveredAnnotation;
  editingIssueId : option string;
  editForm : Partial.t;
  dragStart : option DragStart;
  currentDrag : option Point;
  nextArr : nat
}.

Definition setIssues (v : list Issue) (s : State) : State :=
  mkState v (hoveredIssueId s) (selectedIssueId s) (hoveredAnnotation s)
    (editingIssueId s) (editForm s) (dragStart s) (currentDrag s) (nextArr s).

Definition setHoveredIssueId (v : option string) (s : State) : State :=
  mkState (issues s) v (selectedIssueId s) (hoveredAnnotation s)
    (editingIssueId s) (editForm s) (dragStart s) (currentDrag s) (nextArr s).

Definition setSelectedIssueId (v : option string) (s : State) : State :=
  mkState (issues s) (hoveredIssueId s) v (hoveredAnnotation s)
    (editingIssueId s) (editForm s) (dragStart s) (currentDrag s) (nextArr s).

Definition setHoveredAnnotation (v : option HoveredAnnotation) (s : State)
    : State :=
  mkState (issues s) (hoveredIssueId s) (selectedIssueId s) v
    (editingIssueId s) (editForm s) (dragStart s) (currentDrag s) (nextArr s).

Definition setEditingIssueId (v : option string) (s : State) : State :=
  mkState (issues s) (hoveredIssueId s) (selectedIssueId s)
    (hoveredAnnotation s) v (editForm s) (dragStart s) (currentDrag s)
    (nextArr s).

Definition setEditForm (v : Partial.t) (s : State) : State :=
  mkState (issues s) (hoveredIssueId s) (selectedIssueId s)
    (hoveredAnnotation s) (editingIssueId s) v (dragStart s) (currentDrag s)
    (nextArr s).

Definition setDragStart (v : option DragStart) (s : State) : State :=
  mkState (issues s) (hoveredIssueId s) (selectedIssueId s)
    (hoveredAnnotation s) (editingIssueId s) (editForm s) v (currentDrag s)
    (nextArr s).

Definition setCurrentDrag (v : option Point) (s : State) : State :=
  mkState (issues s) (hoveredIssueId s) (selectedIssueId s)
    (hoveredAnnotation s) (editingIssueId s) (editForm s) (dragStart s) v
    (nextArr s).

Definition setNextArr (v : nat) (s : State) : State :=
  mkState (issues s) (hoveredIssueId s) (selectedIssueId s)
    (hoveredAnnotation s) (editingIssueId s) (editForm s) (dragStart s)
    (currentDrag s) v.

(** A handler runs against the state [r] of the render whose closure it is,
    and threads the pending state [p] that its updates build. *)
Definition Handler (A : Type) : Type := State -> State -> A * State.

Definition ret {A : Type} (a : A) : Handler A := fun _ p => (a, p).

Definition bind {A B : Type} (m : Handler A) (k : A -> Handler B)
    : Handler B :=
  fun r p => k (fst (m r p)) r (snd (m r p)).

(** The state variables as the closure sees them. *)
Definition render : Handler State := fun r p => (r, p).

(** A [setX(...)] call; with [f := setX v] it installs a value, with an [f]
    that reads its argument it is a functional update [setX(prev => ...)]. *)
Definition enqueue (f : State -> State) : Handler unit := fun _ p => (tt, f p).

(** Allocation of a new array. *)
Definition newArr (l : list Annotation) : Handler Arr :=
  fun _ p => (mkArr (nextArr p) l, setNextArr (S (nextArr p)) p).

(** One event: the handler runs on the rendered state and its updates are
    applied. *)
Definition dispatch (h : Handler unit) (s : State) : State := snd (h s s).

Declare Scope handler_scope.
Delimit Scope handler_scope with handler.
Notation "x <- c1 ;; c2" := (bind c1 (fun x => c2))
  (at level 61, c1 at next level, right associativity) : handler_scope.
Notation "c1 ;; c2" := (bind c1 (fun _ => c2))
  (at level 61, right associativity) : handler_scope.
Open Scope handler_scope.

(** Truthiness of a [string | null]: [null] and the empty string are falsy. *)
Definition truthy (o : option string) : bool :=
  match o with
  | Some s => negb (String.eqb s EmptyString)
  | None => false
  end.

(** [v === o] for a string [v] and a [string | null]. *)
Definition strictEq (v : string) (o : option string) : bool :=
  match o with
  | Some s => String.eqb v s
  | None => false
  end.

(** The test of [cancelEdit] for "a new unsaved issue": empty arrays and the
    default title. *)
Definition isNewUnsaved (originalIssue : Issue) : bool :=
  (List.length (elems (liveAnnotations originalIssue)) =? 0)%nat
  && (List.length (elems (designAnnotations originalIssue)) =? 0)%nat
  && String.eqb (title originalIssue) "New Issue".

Definition cancelEdit : Handler unit :=
  r <- render ;;
  let originalIssue :=
    find (fun i => strictEq (id i) (editingIssueId r)) (issues r) in
  (match originalIssue with
   | Some o =>
       if isNewUnsaved o
       then enqueue (setIssues
              (filter (fun i => negb (strictEq (id i) (editingIssueId r)))
                      (issues r)))
       else ret tt
   | None => ret tt
   end) ;;
  enqueue (setEditingIssueId None) ;;
  enqueue (setEditForm Partial.empty).

Definition startEdit (issue : Issue) : Handler unit :=
  r <- render ;;
  (if truthy (editingIssueId r)
      && negb (strictEq (id issue) (editingIssueId r))
   then cancelEdit else ret tt) ;;
  enqueue (setEditingIssueId (Some (id issue))) ;;
  la <- newArr (elems (liveAnnotations issue)) ;;
  da <- newArr (elems (designAnnotations issue)) ;;
  enqueue (setEditForm
    (Partial.set_designAnnotations da
      (Partial.set_liveAnnotations la (spreadIssue issue)))) ;;
  enqueue (setSelectedIssueId None).

(** [now] is the value of [Date.now()]. *)
Definition createIssue (now : N) : Handler unit :=
  r <- render ;;
  let newId := NilZero.string_of_uint (N.to_uint now) in
  la <- newArr [] ;;
  da <- newArr [] ;;
  let newIssue :=
    mkIssue newId "New Issue" "Describe the issue..." None None la da
      "Expected behavior..." "Observed behavior..." "Suggested fix..."
      Medium (Some box) in
  enqueue (setIssues (newIssue :: issues r)) ;;
  startEdit newIssue.

(** [confirmed] is the answer of [window.confirm]. *)
Definition deleteIssue (target : string) (confirmed : bool) : Handler unit :=
  if confirmed then
    r <- render ;;
    enqueue (setIssues
      (filter (fun i => negb (String.eqb (id i) target)) (issues r))) ;;
    (if strictEq target (editingIssueId r) then cancelEdit else ret tt)
  else ret tt.

Definition saveEdit : Handler unit :=
  r <- render ;;
  if truthy (editingIssueId r) then
    enqueue (setIssues
      (map (fun i => if strictEq (id i) (editingIssueId r)
                     then mergeIssue i (editForm r) else i)
           (issues r))) ;;
    enqueue (setEditingIssueId None) ;;
    enqueue (setEditForm Partial.empty)
  else ret tt.

(** *** Drawing *)

Definition handleMouseDown (e : MouseEvent) (type : Side) : Handler unit :=
  r <- render ;;
  if truthy (editingIssueId r) then
    let rect := currentTargetRect e in
    let x := clientX e - rect_left rect in
    let y := clientY e - rect_top rect in
    enqueue (setDragStart (Some (mkDragStart x y type))) ;;
    enqueue (setCurrentDrag (Some (mkPoint x y)))
  else ret tt.

Definition handleMouseMove (e : MouseEvent) : Handler unit :=
  r <- render ;;
  match dragStart r with
  | None => ret tt
  | Some _ =>
      enqueue (setCurrentDrag (Some (mkPoint (clampedX e) (clampedY e))))
  end.

(** The elements of [prev.xAnnotations || []]. *)
Definition elemsOr (o : option Arr) : list Annotation :=
  match o with Some a => elems a | None => [] end.

(** The functional update of [handleMouseUp]:
    [prev => ({ ...prev, xAnnotations: [...(prev.xAnnotations || []), ann] })]. *)
Definition appendAnnotation (type : Side) (ann : Annotation) (prev : State)
    : State :=
  let form := editForm prev in
  let fresh := nextArr prev in
  setNextArr (S fresh)
    (setEditForm
       (match type with
        | design =>
            Partial.set_designAnnotations
              (mkArr fresh (elemsOr (Partial.designAnnotations form) ++ [ann]))
              form
        | live =>
            Partial.set_liveAnnotations
              (mkArr fresh (elemsOr (Partial.liveAnnotations form) ++ [ann]))
              form
        end) prev).

Definition handleMouseUp (e : MouseEvent) : Handler unit :=
  r <- render ;;
  match dragStart r, currentDrag r with
  | Some ds, Some cd =>
      let rect := currentTargetRect e in
      if belowThreshold ds cd then
        enqueue (setDragStart None) ;;
        enqueue (setCurrentDrag None)
      else
        let annType := orElse (Partial.annotationType (editForm r)) box in
        enqueue (appendAnnotation (ds_type ds)
                   (newAnnotation rect ds cd annType)) ;;
        enqueue (setDragStart None) ;;
        enqueue (setCurrentDrag None)
  | _, _ => ret tt
  end.

(** [onMouseLeave] of both surfaces. *)
Definition handleMouseLeave : Handler unit :=
  r <- render ;;
  match dragStart r with
  | Some _ => enqueue (setDragStart None) ;; enqueue (setCurrentDrag None)
  | None => ret tt
  end.

(** [l.filter((_, i) => keep i)], counting positions from [i]. *)
Fixpoint filterIndex {A : Type} (keep : nat -> bool) (i : nat) (l : list A)
    : list A :=
  match l with
  | [] => []
  | x :: rest =>
      if keep i then x :: filterIndex keep (S i) rest
      else filterIndex keep (S i) rest
  end.

(** The functional update of [deleteAnnotation]. *)
Definition removeAnnotation (type : Side) (index : nat) (prev : State)
    : State :=
  let form := editForm prev in
  let fresh := nextArr prev in
  let keep := fun i => negb (i =? index)%nat in
  setNextArr (S fresh)
    (setEditForm
       (match type with
        | design =>
            Partial.set_designAnnotations
              (mkArr fresh
                 (filterIndex keep 0 (elemsOr (Partial.designAnnotations form))))
              form
        | live =>
            Partial.set_liveAnnotations
              (mkArr fresh
                 (filterIndex keep 0 (elemsOr (Partial.liveAnnotations form))))
              form
        end) prev).

Definition deleteAnnotation (type : Side) (index : nat) : Handler unit :=
  enqueue (removeAnnotation type index) ;;
  enqueue (setHoveredAnnotation None).

(** *** Field edits of the form: [setEditForm({ ...editForm, key: v })] *)

Definition editField (f : Partial.t -> Partial.t) : Handler unit :=
  r <- render ;;
  enqueue (setEditForm (f (editForm r))).

(** The click on a list entry or on an overlay of an issue that is not under
    edit. *)
Definition selectIssue (target : string) : Handler unit :=
  r <- render ;;
  if truthy (editingIssueId r) then ret tt
  else enqueue (setSelectedIssueId (Some target)).

(** *** Events *)

Inductive Event :=
| MouseDown (e : MouseEvent) (type : Side)
| MouseMove (e : MouseEvent)
| MouseUp (e : MouseEvent)
| MouseLeave
| DeleteAnnotation (type : Side) (index : nat)
| SetTitle (v : string)
| SetDescription (v : string)
| SetSeverity (v : Severity)
| SetAnnotationType (v : AnnotationType)
| StartEdit (issue : Issue)
| CreateIssue (now : N)
| DeleteIssue (target : string) (confirmed : bool)
| SaveEdit
| CancelEdit
| SelectIssue (target : string).

Definition handler (ev : Event) : Handler unit :=
  match ev with
  | MouseDown e type => handleMouseDown e type
  | MouseMove e => handleMouseMove e
  | MouseUp e => handleMouseUp e
  | MouseLeave => handleMouseLeave
  | DeleteAnnotation type index => deleteAnnotation type index
  | SetTitle v => editField (Partial.set_title v)
  | SetDescription v => editField (Partial.set_description v)
  | SetSeverity v => editField (Partial.set_severity v)
  | SetAnnotationType v => editField (Partial.set_annotationType v)
  | StartEdit issue => startEdit issue
  | CreateIssue now => createIssue now
  | DeleteIssue target confirmed => deleteIssue target confirmed
  | SaveEdit => saveEdit
  | CancelEdit => cancelEdit
  | SelectIssue target => selectIssue target
  end.

Definition step (s : State) (ev : Event) : State := dispatch (handler ev) s.

Definition run (s : State) (evs : list Event) : State := fold_left step evs s.

(** The events that act on the edit buffer: drawing, deleting an annotation
    and the fields of the form. *)
Definition isBufferEvent (ev : Event) : bool :=
  match ev with
  | MouseDown _ _ | MouseMove _ | MouseUp _ | MouseLeave
  | DeleteAnnotation _ _
  | SetTitle _ | SetDescription _ | SetSeverity _ | SetAnnotationType _ => true
  | _ => false
  end.

(** ** Interactive renderer ([renderAnnotation], [getCropStyle]) *)

(** What [renderAnnotation] returns when it is not [null]: the geometry of the
    overlay, the number of its badge ([None] when the badge shows the delete
    mark) and whether it is in the hovered-for-deletion state. *)
Inductive Overlay :=
| ArrowOverlay (x1 y1 x2 y2 : number) (badge : option nat) (deleting : bool)
| BoxOverlay (style : Style) (badge : option nat) (deleting : bool).

Definition sideOf (isDesign : bool) : Side :=
  if isDesign then design else live.

Definition sideEqb (a b : Side) : bool :=
  match a, b with
  | design, design | live, live => true
  | _, _ => false
  end.

(** [a === b] for two optional strings of which [b] is [undefined] when
    absent. *)
Definition optStrictEq (a b : option string) : bool :=
  match a, b with
  | Some x, Some y => String.eqb x y
  | _, _ => false
  end.

Definition renderAnnotation (s : State) (issueId : option string)
    (isDesign : bool) (annotation : Annotation) (idx annIndex : nat)
    : option Overlay :=
  let isEditingThis := optStrictEq (editingIssueId s) issueId in
  let isThisAnnotationHovered :=
    isEditingThis &&
    match hoveredAnnotation s with
    | Some h =>
        optStrictEq (Some (hov_id h)) issueId
        && (hov_index h =? annIndex)%nat
        && sideEqb (hov_type h) (sideOf isDesign)
    | None => false
    end in
  let '(c1, c2, c3, c4) := coords annotation in
  if Qeq_bool c1 0 && Qeq_bool c2 0 && Qeq_bool c3 0 && Qeq_bool c4 0
  then None
  else
    let badge := if isThisAnnotationHovered then None else Some (idx + 1)%nat in
    match type annotation with
    | arrow =>
        let '(y1, x1, y2, x2) := coords annotation in
        Some (ArrowOverlay x1 y1 x2 y2 badge isThisAnnotationHovered)
    | box =>
        Some (BoxOverlay (getStyleFromBox (coords annotation)) badge
                isThisAnnotationHovered)
    end.

(** [l.map((x, i) => f x i)], counting positions from [i]. *)
Fixpoint mapIndex {A B : Type} (f : A -> nat -> B) (i : nat) (l : list A)
    : list B :=
  match l with
  | [] => []
  | x :: rest => f x i :: mapIndex f (S i) rest
  end.

(** The overlays of one surface: the issue under edit is drawn from the
    buffer, the others from the committed collection. *)
Definition surfaceOverlays (s : State) (isDesign : bool)
    : list (list (option Overlay)) :=
  mapIndex
    (fun issue idx =>
       let isEditingThis := strictEq (id issue) (editingIssueId s) in
       let annotations :=
         if isEditingThis then
           elemsOr (if isDesign then Partial.designAnnotations (editForm s)
                    else Partial.liveAnnotations (editForm s))
         else
           elems (if isDesign then designAnnotations issue
                  else liveAnnotations issue) in
       let shownId :=
         if isEditingThis then Partial.id (editForm s) else Some (id issue) in
       mapIndex
         (fun ann annIdx => renderAnnotation s shownId isDesign ann idx annIdx)
         0%nat annotations)
    0%nat (issues s).

Record CropStyle := mkCropStyle {
  backgroundImage : string;
  backgroundPositionX : number;
  backgroundPositionY : number;
  backgroundSize : number
}.

(** The [box] of [getCropStyle]: the coordinates of the first annotation of
    the side, or [[0,0,0,0]]. *)
Definition cropBox (issue : Issue) (type : Side) : Coords :=
  let annotations :=
    match type with
    | design => elems (designAnnotations issue)
    | live => elems (liveAnnotations issue)
    end in
  match annotations with
  | a :: _ => coords a
  | [] => (0, 0, 0, 0)
  end.

(** [None] is the empty style object [{}]. *)
Definition getCropStyle (issue : Issue) (imageSrc : option string)
    (type : Side) (zoomLevel : number) : option CropStyle :=
  if truthy imageSrc then
    let '(y1, x1, y2, x2) := cropBox issue type in
    let minY := Qmin y1 y2 in
    let maxY := Qmax y1 y2 in
    let minX := Qmin x1 x2 in
    let maxX := Qmax x1 x2 in
    let centerX := (minX + maxX) / 2 / 10 in
    let centerY := (minY + maxY) / 2 / 10 in
    Some (mkCropStyle (orElse imageSrc EmptyString) centerX centerY zoomLevel)
  else None.

(** ** Export renderer (the script of [generateHtmlReport]) *)

Definition getStyle (b : Coords) : Style :=
  let '(b0, b1, b2, b3) := b in
  if Qeq_bool b0 0 && Qeq_bool b1 0 && Qeq_bool b2 0 && Qeq_bool b3 0
  then DisplayNone
  else BoxStyle (b0 / 10) (b1 / 10) ((b2 - b0) / 10) ((b3 - b1) / 10).

(** The element appended to an overlay layer. *)
Inductive ExportElement :=
| ExportArrow (x1 y1 x2 y2 : number) (badgeX badgeY : number) (badge : nat)
| ExportBox (style : Style) (badge : nat).

Definition createArrow (b : Coords) (idx : nat) : ExportElement :=
  let '(y1, x1, y2, x2) := b in
  ExportArrow x1 y1 x2 y2 (x1 - 10) (y1 - 10) (idx + 1)%nat.

Definition createBox (b : Coords) (idx : nat) : ExportElement :=
  ExportBox (getStyle b) (idx + 1)%nat.

Definition exportAnnotation (idx : nat) (ann : Annotation) : ExportElement :=
  match type ann with
  | arrow => createArrow (coords ann) idx
  | box => createBox (coords ann) idx
  end.

(** The children of [design-overlays] or [live-overlays] after the
    [forEach] over [data.issues]. *)
Definition exportOverlays (data : list Issue) (type : Side)
    : list ExportElement :=
  List.concat
    (mapIndex
       (fun issue idx =>
          map (exportAnnotation idx)
            (match type with
             | design => elems (designAnnotations issue)
             | live => elems (liveAnnotations issue)
             end))
       0%nat data).

(** An element with [display: none] paints nothing; every other element is
    laid out. *)
Definition exportVisible (el : ExportElement) : bool :=
  match el with
  | ExportBox DisplayNone _ => false
  | _ => true
  end.

(** ** Collaborator adapter ([runDesignQA]) *)

Module Raw.
(** A specific issue of the collaborator's JSON. *)
Record t := mk {
  id : string;
  title : string;
  description : string;
  box_2d : option (list number);
  design_box_2d : option (list number);
  designReference : string;
  liveObservation : string;
  suggestion : string;
  severity : Severity
}.
End Raw.

Record GeneralIssue := mkGeneralIssue {
  category : string;
  gi_description : string
}.

(** [rawResult]; a key the JSON lacks is [None]. *)
Record RawResult := mkRawResult {
  raw_score : number;
  raw_generalIssues : list GeneralIssue;
  raw_specificIssues : option (list Raw.t)
}.

Record AnalysisResult := mkAnalysisResult {
  score : number;
  generalIssues : list GeneralIssue;
  specificIssues : list Issue
}.

(** [b && b.length === 4 ? [{ type: 'box', coords: b }] : []]. *)
Definition annotationsOfBox (b : option (list number)) : list Annotation :=
  match b with
  | Some [c1; c2; c3; c4] => [mkAnnotation box (c1, c2, c3, c4)]
  | _ => []
  end.

(** The callback of [rawResult.specificIssues.map]; [fresh] is the allocation
    counter of the arrays. *)
Definition transformIssue (fresh : nat) (issue : Raw.t) : Issue * nat :=
  (mkIssue (Raw.id issue) (Raw.title issue) (Raw.description issue)
     (Raw.box_2d issue) (Raw.design_box_2d issue)
     (mkArr fresh (annotationsOfBox (Raw.box_2d issue)))
     (mkArr (S fresh) (annotationsOfBox (Raw.design_box_2d issue)))
     (Raw.designReference issue) (Raw.liveObservation issue)
     (Raw.suggestion issue) (Raw.severity issue) (Some box),
   S (S fresh)).

Fixpoint transformedIssues (fresh : nat) (l : list Raw.t)
    : list Issue * nat :=
  match l with
  | [] => ([], fresh)
  | issue :: rest =>
      let r1 := transformIssue fresh issue in
      let r2 := transformedIssues (snd r1) rest in
      (fst r1 :: fst r2, snd r2)
  end.

(** The transformation step of [runDesignQA]; [.map] on a missing
    [specificIssues] throws, and the [catch] rethrows the error. *)
Definition transformResult (fresh : nat) (rawResult : RawResult)
    : (AnalysisResult * nat) + string :=
  match raw_specificIssues rawResult with
  | Some l =>
      let r := transformedIssues fresh l in
      inl (mkAnalysisResult (raw_score rawResult) (raw_generalIssues rawResult)
             (fst r), snd r)
  | None => inr "Failed to analyze images"%string
  end.

(** The state of the component when it mounts on a result. *)
Definition initialState (result : AnalysisResult) (fresh : nat) : State :=
  mkState (specificIssues result) None None None None Partial.empty None None
    fresh.

(** ** Notions used by the statements *)

Definition coordsEq (a b : Coords) : Prop :=
  let '(a1, a2, a3, a4) := a in
  let '(b1, b2, b3, b4) := b in
  a1 == b1 /\ a2 == b2 /\ a3 == b3 /\ a4 == b4.

(** The elements of the buffer's sequence of one side. *)
Definition bufferElems (type : Side) (s : State) : list Annotation :=
  match type with
  | design => elemsOr (Partial.designAnnotations (editForm s))
  | live => elemsOr (Partial.liveAnnotations (editForm s))
  end.

(** The committed sequence of one side of an issue. *)
Definition annotationsOf (issue : Issue) (type : Side) : list Annotation :=
  match type with
  | design => elems (designAnnotations issue)
  | live => elems (liveAnnotations issue)
  end.

(** The committed record with a given identifier, as [find] sees it. *)
Definition committed (target : string) (s : State) : option Issue :=
  find (fun i => String.eqb (id i) target) (issues s).

(** Both arrays of an issue were allocated before the counter reached [n]. *)
Definition arraysBelow (n : nat) (i : Issue) : Prop :=
  (arr_id (liveAnnotations i) < n)%nat /\ (arr_id (designAnnotations i) < n)%nat.

(** Every array of the committed collection was allocated before the current
    value of the allocation counter. *)
Definition committedAllocated (s : State) : Prop :=
  Forall (arraysBelow (nextArr s)) (issues s).



(** The record [createIssue] synthesizes at time [now], with its two arrays
    allocated at [n] and [n + 1]. *)
Definition newIssueAt (now : N) (n : nat) : Issue :=
  mkIssue (NilZero.string_of_uint (N.to_uint now)) "New Issue"
    "Describe the issue..." None None (mkArr n []) (mkArr (S n) [])
    "Expected behavior..." "Observed behavior..." "Suggested fix..."
    Medium (Some box).

(** *** Allocation of the arrays *)


(** Allocation invariant of the component: every array of the committed
    collection and of the buffer was allocated before the current value of
    the counter. *)
Definition allocated (s : State) : Prop :=
  committedAllocated s /\
  (forall a, Partial.liveAnnotations (editForm s) = Some a ->
             (arr_id a < nextArr s)%nat) /\
  (forall a, Partial.designAnnotations (editForm s) = Some a ->
             (arr_id a < nextArr s)%nat).

(** *** Range of the stored coordinates *)

Definition inRange (c : Coords) : Prop :=
  let '(c1, c2, c3, c4) := c in
  (0 <= c1 /\ c1 <= 1000) /\ (0 <= c2 /\ c2 <= 1000) /\
  (0 <= c3 /\ c3 <= 1000) /\ (0 <= c4 /\ c4 <= 1000).

Definition annotationsInRange (l : list Annotation) : Prop :=
  Forall (fun a => inRange (coords a)) l.

(** Every annotation of the committed collection and of the buffer is in
    range. *)
Definition storedInRange (s : State) : Prop :=
  Forall (fun i => annotationsInRange (elems (liveAnnotations i)) /\
                   annotationsInRange (elems (designAnnotations i)))
         (issues s) /\
  annotationsInRange (elemsOr (Partial.liveAnnotations (editForm s))) /\
  annotationsInRange (elemsOr (Partial.designAnnotations (editForm s))).

(** Every box of the collaborator's result that becomes an annotation is in
    range. *)
Definition rawInRange (l : list Raw.t) : Prop :=
  Forall (fun raw =>
            annotationsInRange (annotationsOfBox (Raw.box_2d raw)) /\
            annotationsInRange (annotationsOfBox (Raw.design_box_2d raw)))
         l.

(** A pixel position that lies on a surface. *)
Definition onSurface (rect : DOMRect) (x y : number) : Prop :=
  (0 <= x /\ x <= rect_width rect) /\ (0 <= y /\ y <= rect_height rect).

(** What the browser guarantees of an event, given the bounding boxes of the
    two surfaces: a pointer-down fires on the surface the pointer is on; while
    a drag is open, pointer moves and the pointer-up fire on the surface the
    drag began on (leaving it ends the drag); the edit of an issue starts from
    an entry of the list. *)
Definition wellFormedEvent (surface : Side -> DOMRect) (s : State)
    (ev : Event) : Prop :=
  match ev with
  | MouseDown e type =>
      currentTargetRect e = surface type /\
      onSurface (surface type) (clientX e - rect_left (surface type))
                (clientY e - rect_top (surface type))
  | MouseMove e | MouseUp e =>
      forall ds, dragStart s = Some ds ->
                 currentTargetRect e = surface (ds_type ds)
  | StartEdit issue => In issue (issues s)
  | _ => True
  end.

Fixpoint wellFormedTrace (surface : Side -> DOMRect) (s : State)
    (evs : list Event) : Prop :=
  match evs with
  | [] => True
  | ev :: rest =>
      wellFormedEvent surface s ev /\ wellFormedTrace surface (step s ev) rest
  end.

(** The points of an open drag lie on the surface it began on. *)
Definition dragOnSurface (surface : Side -> DOMRect) (s : State) : Prop :=
  forall ds, dragStart s = Some ds ->
    onSurface (surface (ds_type ds)) (ds_x ds) (ds_y ds) /\
    forall cd, currentDrag s = Some cd ->
      onSurface (surface (ds_type ds)) (px cd) (py cd).

(** ** Sample values *)

Definition sampleRect : DOMRect := mkRect 10 20 800 600.

Definition sampleIssue : Issue :=
  mkIssue "1" "Button colour" "The button is green."
    (Some [100; 200; 300; 400]) (Some [110; 210; 310; 410])
    (mkArr 0 [mkAnnotation box (100, 200, 300, 400)])
    (mkArr 1 [mkAnnotation box (110, 210, 310, 410)])
    "Blue button" "Green button" "color: blue" High (Some box).

(** The component mounted on a one-issue result, with that issue under
    edit. *)
Definition sampleEditing : State :=
  step (mkState [sampleIssue] None None None None Partial.empty None None 2)
       (StartEdit sampleIssue).

Definition sampleStart : DragStart := mkDragStart 400 300 live.

Definition sampleEnd : Point := mkPoint 200 150.

(** A pointer-up event on the live surface. *)
Definition sampleUp : MouseEvent := mkMouseEvent 210 170 sampleRect.

(** A drag in progress from (400, 300) to (200, 150), in rectangle mode and
    in arrow mode. *)
Definition sampleBoxDrag : State :=
  setCurrentDrag (Some sampleEnd) (setDragStart (Some sampleStart) sampleEditing).

Definition sampleArrowDrag : State :=
  setCurrentDrag (Some sampleEnd)
    (setDragStart (Some sampleStart)
       (step sampleEditing (SetAnnotationType arrow))).

(** An issue whose live side starts with the degenerate sentinel and goes on
    with a real box. *)
Definition sentinelFirstIssue : Issue :=
  mkIssue "7" "Spacing" "Gap above the footer." None None
    (mkArr 0 [mkAnnotation box (0, 0, 0, 0);
              mkAnnotation box (100, 200, 300, 400)])
    (mkArr 1 [])
    "No gap" "Large gap" "remove margin-bottom" Low (Some box).

(** The collaborator result of the end-to-end scenario. *)
Definition sampleRawIssue : Raw.t :=
  Raw.mk "1" "Button colour" "The button is green."
    (Some [100; 200; 300; 400]) (Some [110; 210; 310; 410])
    "Blue button" "Green button" "color: blue" High.

Definition sampleRawResult : RawResult :=
  mkRawResult 90 [] (Some [sampleRawIssue]).

(** An empty collection on which the user has just pressed "add issue": the
    new issue is committed and under edit, untouched. *)
Definition editingNewIssue : State :=
  step (mkState [] None None None None Partial.empty None None 0)
       (CreateIssue 1700000000000).

(** The same on a collection that holds [sampleIssue]. *)
Definition editingNewIssueAmongOthers : State :=
  step (mkState [sampleIssue] None None None None Partial.empty None None 2)
       (CreateIssue 1700000000000).

(** A collaborator result whose live box leaves the 0-1000 scale. *)
Definition outOfScaleRawResult : RawResult :=
  mkRawResult 40 []
    (Some [Raw.mk "1" "Footer" "The footer is cut." (Some [0; 0; 2000; 5000])
             None "Footer visible" "Footer cut" "overflow: visible" Medium]).

(** Two surfaces of 800 by 600 pixels. *)
Definition sampleSurface (type : Side) : DOMRect :=
  match type with
  | design => mkRect 10 20 800 600
  | live => mkRect 830 20 800 600
  end.

(** A session on the live surface: edit the issue, draw a box, save. *)
Definition sampleTrace : list Event :=
  [StartEdit sampleIssue;
   MouseDown (mkMouseEvent 1230 320 (sampleSurface live)) live;
   MouseMove (mkMouseEvent 1900 100 (sampleSurface live));
   MouseUp (mkMouseEvent 1900 100 (sampleSurface live));
   SaveEdit].

(** ** Further notions: pointer events, detail view, contents of a record *)

(** The pointer events of the two surfaces. *)
Definition isPointerEvent (ev : Event) : bool :=
  match ev with
  | MouseDown _ _ | MouseMove _ | MouseUp _ | MouseLeave => true
  | _ => false
  end.

Definition otherSide (type : Side) : Side :=
  match type with design => live | live => design end.

(** The detail view and the edit session exclude each other. *)
Definition exclusive (s : State) : Prop :=
  truthy (editingIssueId s) = true -> selectedIssueId s = None.

(** Two records with the same fields and the same annotations, whatever the
    identity of their arrays. *)
Definition sameContents (a b : Issue) : Prop :=
  id a = id b /\ title a = title b /\ description a = description b /\
  box_2d a = box_2d b /\ design_box_2d a = design_box_2d b /\
  elems (liveAnnotations a) = elems (liveAnnotations b) /\
  elems (designAnnotations a) = elems (designAnnotations b) /\
  designReference a = designReference b /\
  liveObservation a = liveObservation b /\
  suggestion a = suggestion b /\ severity a = severity b /\
  annotationType a = annotationType b.

(** What the two renderers lay out for an annotation: a line between two
    points of the 1000 by 1000 view box, or a box positioned in percent. *)
Inductive Geometry :=
| LineGeometry (x1 y1 x2 y2 : number)
| BoxGeometry (style : Style).

Definition overlayGeometry (o : Overlay) : Geometry :=
  match o with
  | ArrowOverlay x1 y1 x2 y2 _ _ => LineGeometry x1 y1 x2 y2
  | BoxOverlay style _ _ => BoxGeometry style
  end.

Definition overlayBadge (o : Overlay) : option nat :=
  match o with
  | ArrowOverlay _ _ _ _ badge _ => badge
  | BoxOverlay _ badge _ => badge
  end.

Definition exportGeometry (el : ExportElement) : Geometry :=
  match el with
  | ExportArrow x1 y1 x2 y2 _ _ _ => LineGeometry x1 y1 x2 y2
  | ExportBox style _ => BoxGeometry style
  end.

Definition exportBadge (el : ExportElement) : nat :=
  match el with
  | ExportArrow _ _ _ _ _ _ badge => badge
  | ExportBox _ badge => badge
  end.

(** ** The exported page and its hover script ([generateHtmlReport])

    The page is modelled as the script builds it, for issues whose
    identifiers are made of letters, digits, hyphens and underscores (so that
    ['.issue-annotation-' + id] is the selector of one class token) and whose
    texts hold no markup (they are written into [innerHTML] as they are). *)

(** ASCII whitespace, the separator of class tokens. *)
Definition isWhitespace (c : Ascii.ascii) : bool :=
  match Ascii.nat_of_ascii c with
  | 9%nat | 10%nat | 12%nat | 13%nat | 32%nat => true
  | _ => false
  end.

(** The tokens of a [class] attribute; [cur] is the token being read. *)
Fixpoint tokensFrom (s : string) (cur : string) : list string :=
  match s with
  | EmptyString =>
      match cur with EmptyString => [] | _ => [cur] end
  | String c rest =>
      if isWhitespace c then
        match cur with
        | EmptyString => tokensFrom rest EmptyString
        | _ => cur :: tokensFrom rest EmptyString
        end
      else tokensFrom rest (cur ++ String c EmptyString)
  end.

(** [classList.contains]. *)
Definition contains (l : list string) (token : string) : bool :=
  existsb (String.eqb token) l.

(** A token list is an ordered set: a repeated token counts once. *)
Fixpoint orderedSet (seen l : list string) : list string :=
  match l with
  | [] => []
  | t :: rest =>
      if contains seen t then orderedSet seen rest
      else t :: orderedSet (seen ++ [t]) rest
  end.

(** The [classList] of an element whose [class] attribute is [className]. *)
Definition classListOf (className : string) : list string :=
  orderedSet [] (tokensFrom className EmptyString).

(** [classList.add(t1, ..., tn)] and [classList.remove(t1, ..., tn)]. *)
Definition classAdd (tokens : list string) (l : list string) : list string :=
  fold_left (fun acc t => if contains acc t then acc else acc ++ [t]) tokens l.

Definition classRemove (tokens : list string) (l : list string)
    : list string :=
  filter (fun t => negb (contains tokens t)) l.

(** An overlay of the export: the element of [createArrow] or [createBox]
    with the classes of its root, the classes of its badge and, for an arrow,
    the [stroke-width] of its line. *)
Record OverlayNode := mkOverlayNode {
  element : ExportElement;
  classes : list string;
  badgeClasses : list string;
  strokeWidth : option string
}.

(** ['DIV'] for a box, ['svg'] for an arrow. *)
Definition tagName (n : OverlayNode) : string :=
  match element n with
  | ExportBox _ _ => "DIV"
  | ExportArrow _ _ _ _ _ _ _ => "svg"
  end.

Definition arrowNode (issueId : string) (b : Coords) (color : string)
    (idx : nat) : OverlayNode :=
  mkOverlayNode (createArrow b idx)
    (classListOf
       ("absolute inset-0 w-full h-full pointer-events-none overflow-visible z-20 issue-annotation-"
        ++ issueId))
    (classListOf
       ("flex h-6 w-6 items-center justify-center rounded-full text-xs font-bold text-white shadow-sm "
        ++ (if String.eqb color "#22c55e" then "bg-green-500"
            else "bg-red-500"))%string)
    (Some "3"%string).

Definition boxNode (issueId : string) (b : Coords) (color : string)
    (idx : nat) : OverlayNode :=
  mkOverlayNode (createBox b idx)
    (classListOf
       ("absolute border-2 "
        ++ (if String.eqb color "#22c55e" then "border-green-500/0"
            else "border-red-500/0")
        ++ " transition-all duration-200 z-20 issue-annotation-" ++ issueId)%string)
    (classListOf
       ("absolute -top-3 -right-3 flex h-6 w-6 items-center justify-center rounded-full text-xs font-bold text-white shadow-sm "
        ++ (if String.eqb color "#22c55e" then "bg-green-600"
            else "bg-red-600")
        ++ " opacity-0 transition-opacity transform scale-75 annotation-badge")%string)
    None.

Definition overlayNode (issueId : string) (color : string) (idx : nat)
    (ann : Annotation) : OverlayNode :=
  match type ann with
  | arrow => arrowNode issueId (coords ann) color idx
  | box => boxNode issueId (coords ann) color idx
  end.

(** An entry of the issue list: the identifier its element ids are built on,
    the number of its badge and the classes of its badge, title, description
    and accent bar. *)
Record ListItem := mkListItem {
  itemId : string;
  itemNumber : nat;
  itemBadge : list string;
  itemTitle : list string;
  itemDesc : list string;
  itemAccent : list string
}.

Definition listItem (issue : Issue) (idx : nat) : ListItem :=
  mkListItem (id issue) (idx + 1)
    (classListOf
       "flex-shrink-0 flex h-6 w-6 items-center justify-center rounded-full text-xs font-bold bg-slate-100 text-slate-500 group-hover:bg-slate-200 transition-all duration-200")
    (classListOf "text-sm font-bold text-slate-800 truncate")
    (classListOf
       "mt-2 hidden text-xs text-slate-600 bg-slate-50 p-2 rounded border border-slate-100")
    (classListOf
       "absolute left-0 top-0 bottom-0 w-1 bg-blue-500 opacity-0 transition-opacity").

Record Page := mkPage {
  designOverlays : list OverlayNode;
  liveOverlays : list OverlayNode;
  issueList : list ListItem
}.

(** The page after the [forEach] over [data.issues]. *)
Definition renderPage (data : list Issue) : Page :=
  mkPage
    (List.concat
       (mapIndex
          (fun issue idx =>
             map (overlayNode (id issue) "#22c55e" idx)
                 (elems (designAnnotations issue)))
          0%nat data))
    (List.concat
       (mapIndex
          (fun issue idx =>
             map (overlayNode (id issue) "#ef4444" idx)
                 (elems (liveAnnotations issue)))
          0%nat data))
    (mapIndex listItem 0%nat data).

Open Scope string_scope.

(** The body of the [forEach] of [highlight] for one selected element. *)
Definition highlightNode (n : OverlayNode) : OverlayNode :=
  match element n with
  | ExportBox _ _ =>
      mkOverlayNode (element n)
        (if contains (classes n) "border-green-500/0" then
           classAdd ["border-green-500"; "bg-green-500/20";
                     "shadow-[0_0_15px_rgba(34,197,94,0.6)]"]
             (classRemove ["border-green-500/0"] (classes n))
         else if contains (classes n) "border-red-500/0" then
           classAdd ["border-red-500"; "bg-red-500/20";
                     "shadow-[0_0_15px_rgba(239,68,68,0.6)]"]
             (classRemove ["border-red-500/0"] (classes n))
         else classes n)
        (classAdd ["scale-125"]
           (classRemove ["opacity-0"; "scale-75"] (badgeClasses n)))
        (strokeWidth n)
  | ExportArrow _ _ _ _ _ _ _ =>
      mkOverlayNode (element n) (classes n)
        (classAdd ["scale-125"] (badgeClasses n))
        (Some "5"%string)
  end.


(** [querySelectorAll('.issue-annotation-' + id)] followed by the [forEach]:
    the elements that carry the class token are transformed, the others are
    left alone. *)
Definition forSelected (f : OverlayNode -> OverlayNode) (target : string)
    (nodes : list OverlayNode) : list OverlayNode :=
  map (fun n => if contains (classes n) ("issue-annotation-" ++ target)%string
                then f n else n) nodes.

(** [getElementById] finds the first element with the id: the badge, the
    title and the accent bar of the first entry built on [target]. *)
Fixpoint forFirstItem (f : ListItem -> ListItem) (target : string)
    (items : list ListItem) : list ListItem :=
  match items with
  | [] => []
  | it :: rest =>
      if String.eqb (itemId it) target then f it :: rest
      else it :: forFirstItem f target rest
  end.

Definition highlightItem (it : ListItem) : ListItem :=
  mkListItem (itemId it) (itemNumber it)
    (classAdd ["bg-blue-600"; "text-white"; "scale-110"]
       (classRemove ["bg-slate-100"; "text-slate-500"] (itemBadge it)))
    (classAdd ["text-blue-900"] (itemTitle it))
    (itemDesc it)
    (classRemove ["opacity-0"] (itemAccent it)).


Definition highlight (target : string) (p : Page) : Page :=
  mkPage (forSelected highlightNode target (designOverlays p))
         (forSelected highlightNode target (liveOverlays p))
         (forFirstItem highlightItem target (issueList p)).


Close Scope string_scope.










(** A page for the end-to-end samples: two issues whose identifiers share a
    prefix, the second with an arrow. *)
Definition samplePageData : list Issue :=
  [sampleIssue;
   mkIssue "10" "Arrow" "Misaligned icon." None None
     (mkArr 2 [mkAnnotation arrow (500, 500, 250, 250)]) (mkArr 3 [])
     "Icon centred" "Icon off by 4px" "align-items: center" Low (Some arrow)].

(** ** Cleaning of the collaborator's answer ([runDesignQA])

    A JavaScript string is its list of UTF-16 code units. *)

Definition JSString : Type := list N.

(** The code unit of the backtick. *)
Definition backtick : N := 96%N.

(** The three backticks of a fence, and the fence with its language tag. *)
Definition fence : JSString := [96; 96; 96]%N.

Definition jsonFence : JSString := [96; 96; 96; 106; 115; 111; 110]%N.

(** The text ["{}"]. *)
Definition emptyObjectText : JSString := [123; 125]%N.

Fixpoint startsWith (pat s : JSString) : bool :=
  match pat, s with
  | [], _ => true
  | _ :: _, [] => false
  | p :: pat', c :: s' => N.eqb p c && startsWith pat' s'
  end.

(** [s.replace(/pat/g, '')] for a literal pattern: the matches are found from
    the left and do not overlap; [skip] counts the code units of the current
    match that are still to be dropped. *)
Fixpoint removeAll (pat s : JSString) (skip : nat) : JSString :=
  match s with
  | [] => []
  | c :: rest =>
      match skip with
      | S k => removeAll pat rest k
      | O =>
          if startsWith pat s then removeAll pat rest (List.length pat - 1)
          else c :: removeAll pat rest 0
      end
  end.

(** White space and line terminators of ECMAScript, the code units [trim]
    removes. *)
Definition isJSWhitespace (c : N) : bool :=
  (N.eqb c 9 || N.eqb c 10 || N.eqb c 11 || N.eqb c 12 || N.eqb c 13
   || N.eqb c 32 || N.eqb c 160 || N.eqb c 5760
   || (N.leb 8192 c && N.leb c 8202)
   || N.eqb c 8232 || N.eqb c 8233 || N.eqb c 8239 || N.eqb c 8287
   || N.eqb c 12288 || N.eqb c 65279)%N.

Fixpoint trimStart (s : JSString) : JSString :=
  match s with
  | [] => []
  | c :: rest => if isJSWhitespace c then trimStart rest else s
  end.

Definition trimEnd (s : JSString) : JSString := rev (trimStart (rev s)).

Definition trim (s : JSString) : JSString := trimEnd (trimStart s).

(** [(response.text || "{}").replace(/```json/g, '').replace(/```/g, '').trim()];
    [None] is a missing text, and the empty text is falsy too. *)
Definition cleanJson (text : option JSString) : JSString :=
  let t := match text with
           | Some (c :: rest) => c :: rest
           | _ => emptyObjectText
           end in
  trim (removeAll fence (removeAll jsonFence t 0) 0).

(** The number of backticks a text begins with. *)
Fixpoint leadingBackticks (s : JSString) : nat :=
  match s with
  | c :: rest => if N.eqb c backtick then S (leadingBackticks rest) else O
  | [] => O
  end.

(** No fence begins at any position of the text. *)
Fixpoint fenceFree (s : JSString) : bool :=
  match s with
  | [] => true
  | _ :: rest => negb (startsWith fence s) && fenceFree rest
  end.

(** ** The Escape key and the export of [ReportDisplay] *)

(** The [keydown] listener of the effect. *)
Definition handleEsc (key : string) : Handler unit :=
  if String.eqb key "Escape" then
    r <- render ;;
    if truthy (editingIssueId r) then cancelEdit
    else enqueue (setSelectedIssueId None)
  else ret tt.

(** The effect registers its listener again only when [editingIssueId]
    changes: a key press runs the listener of the render [listener] that
    registered it, and its updates are applied to the current state. *)
Definition keydown (key : string) (listener s : State) : State :=
  snd (handleEsc key listener s).

(** The point that [currentDrag] holds after a press stored as [start] and
    the moves [ms]: the clamped position of the last move, or the press point
    when the pointer did not move. *)
Definition lastStored (start : Point) (ms : list MouseEvent) : Point :=
  fold_left (fun _ m => mkPoint (clampedX m) (clampedY m)) ms start.

(** What [handleExport] downloads: nothing when an image is missing, else the
    page that the script of [generateHtmlReport] builds from the committed
    issues. *)
Definition handleExport (designImageSrc liveImageSrc : option string)
    (s : State) : option Page :=
  if negb (truthy designImageSrc) || negb (truthy liveImageSrc) then None
  else Some (renderPage (issues s)).

(** ** The top-level component ([App]) *)

Module App.

(** A [File], known by its name. *)
Definition File : Type := string.

Record State := mkState {
  designFile : option File;
  liveFile : option File;
  designPreview : option string;
  livePreview : option string;
  report : option AnalysisResult;
  error : option string
}.

Definition initial : State := mkState None None None None None None.

(** The [onloadend] callback of [handleImageUpload]; [result] is
    [reader.result], [null] when the file could not be read. *)
Definition handleImageUpload (file : File) (type : Side)
    (result : option string) (s : State) : State :=
  match type with
  | design =>
      mkState (Some file) (liveFile s) result (livePreview s) (report s)
        (error s)
  | live =>
      mkState (designFile s) (Some file) (designPreview s) result (report s)
        (error s)
  end.

Definition handleImageClear (type : Side) (s : State) : State :=
  match type with
  | design =>
      mkState None (liveFile s) None (livePreview s) (report s) (error s)
  | live =>
      mkState (designFile s) None (designPreview s) None (report s) (error s)
  end.

(** The report of a manual session. *)
Definition emptyReport : AnalysisResult := mkAnalysisResult 100 [] [].

Definition missing {A : Type} (o : option A) : bool :=
  match o with Some _ => false | None => true end.

Definition handleStartAnnotation (s : State) : State :=
  if missing (designFile s) || missing (liveFile s) then
    mkState (designFile s) (liveFile s) (designPreview s) (livePreview s)
      (report s)
      (Some "Please upload both a Design and a Live image to start."%string)
  else
    mkState (designFile s) (liveFile s) (designPreview s) (livePreview s)
      (Some emptyReport) None.

Definition isButtonDisabled (s : State) : bool :=
  missing (designFile s) || missing (liveFile s).

(** The [onClick] of "Start New Session". *)
Definition startNewSession (s : State) : State :=
  mkState (designFile s) (liveFile s) (designPreview s) (livePreview s)
    None (error s).

Inductive Event :=
| LoadEnd (file : File) (type : Side) (result : option string)
| Clear (type : Side)
| StartAnnotation
| NewSession.

Definition step (s : State) (ev : Event) : State :=
  match ev with
  | LoadEnd file type result => handleImageUpload file type result s
  | Clear type => handleImageClear type s
  | StartAnnotation => handleStartAnnotation s
  | NewSession => startNewSession s
  end.

Definition previewUrl (type : Side) (s : State) : option string :=
  match type with design => designPreview s | live => livePreview s end.

(** The events the rendered page can deliver: a read may end at any time;
    the clear button of an uploader is rendered with its preview, in the grid
    that is hidden while a report is shown; the start button is rendered
    without a report and disabled by [isButtonDisabled]; "Start New Session"
    is rendered with the report. *)
Definition offered (s : State) (ev : Event) : bool :=
  match ev with
  | LoadEnd _ _ _ => true
  | Clear type => missing (report s) && truthy (previewUrl type s)
  | StartAnnotation => missing (report s) && negb (isButtonDisabled s)
  | NewSession => negb (missing (report s))
  end.

Fixpoint run (s : State) (evs : list Event) : State :=
  match evs with
  | [] => s
  | ev :: rest => run (step s ev) rest
  end.

Fixpoint offeredAll (s : State) (evs : list Event) : bool :=
  match evs with
  | [] => true
  | ev :: rest => offered s ev && offeredAll (step s ev) rest
  end.

(** What holds of every state the page can reach. *)
Definition invariant (s : State) : Prop :=
  error s = None /\
  (report s = None \/ report s = Some emptyReport) /\
  (report s <> None -> designFile s <> None /\ liveFile s <> None) /\
  (truthy (designPreview s) = true -> designFile s <> None) /\
  (truthy (livePreview s) = true -> liveFile s <> None).

(** Two uploads, of which the second cannot be read, a session, its end and
    the removal of the design image. *)
Definition sampleSession : list Event :=
  [LoadEnd "design.png" design (Some "data:image/png;base64,AAAA");
   LoadEnd "live.png" live None;
   StartAnnotation; NewSession; Clear design]%string.

End App.

(** * Properties *)

(** ** Coordinate model *)

Lemma Qltb_false (a b : number) : Qltb a b = false -> b <= a.
Proof.
  unfold Qltb. intros H. apply negb_false_iff in H.
  now apply Qle_bool_iff.
Qed.

Lemma Qltb_true (a b : number) : Qltb a b = true -> a < b.
Proof.
  unfold Qltb. intros H. apply negb_true_iff in H.
  apply Qnot_le_lt. intros Hle. apply Qle_bool_iff in Hle. congruence.
Qed.

Lemma toNormalized_percent (raw dimension : number) :
  0 < dimension ->
  toNormalized raw dimension / 10 == 100 * (raw / dimension).
Proof.
  intros Hd. unfold toNormalized. field. lra.
Qed.

Lemma toNormalized_back (raw dimension : number) :
  0 < dimension ->
  toNormalized raw dimension / 10 / 100 * dimension == raw.
Proof.
  intros Hd. unfold toNormalized. field. lra.
Qed.

Lemma toNormalized_inj (a b dimension : number) :
  0 < dimension ->
  toNormalized a dimension == toNormalized b dimension -> a == b.
Proof.
  intros Hd H.
  rewrite <- (toNormalized_back a dimension Hd).
  rewrite <- (toNormalized_back b dimension Hd).
  now rewrite H.
Qed.

Lemma toNormalized_zero (a dimension : number) :
  0 < dimension -> toNormalized a dimension == 0 -> a == 0.
Proof.
  intros Hd H. apply (toNormalized_inj a 0 dimension Hd).
  rewrite H. unfold toNormalized. field. lra.
Qed.

(** A drag that passes the click threshold moved by at least five pixels
    on one axis. *)
Lemma belowThreshold_false (ds : DragStart) (cd : Point) :
  belowThreshold ds cd = false ->
  5 <= Qabs (ds_x ds - px cd) \/ 5 <= Qabs (ds_y ds - py cd).
Proof.
  unfold belowThreshold. intros H.
  apply andb_false_iff in H. destruct H as [H | H];
    [left | right]; now apply Qltb_false.
Qed.

Lemma completed_drag_moves (ds : DragStart) (cd : Point) :
  belowThreshold ds cd = false ->
  ~ (ds_x ds == px cd /\ ds_y ds == py cd).
Proof.
  intros H [Hx Hy]. apply belowThreshold_false in H.
  destruct H as [H | H].
  - assert (E : ds_x ds - px cd == 0) by (rewrite Hx; ring).
    rewrite E in H. change (Qabs 0) with 0 in H. lra.
  - assert (E : ds_y ds - py cd == 0) by (rewrite Hy; ring).
    rewrite E in H. change (Qabs 0) with 0 in H. lra.
Qed.

Lemma getStyle_getStyleFromBox (b : Coords) : getStyle b = getStyleFromBox b.
Proof. destruct b as [[[b0 b1] b2] b3]. reflexivity. Qed.

Lemma isDegenerate_true (c1 c2 c3 c4 : number) :
  isDegenerate (c1, c2, c3, c4) = true <->
  c1 == 0 /\ c2 == 0 /\ c3 == 0 /\ c4 == 0.
Proof.
  unfold isDegenerate. rewrite !andb_true_iff, !Qeq_bool_iff. tauto.
Qed.

Lemma getStyleFromBox_visible (c1 c2 c3 c4 : number) :
  isDegenerate (c1, c2, c3, c4) = false ->
  getStyleFromBox (c1, c2, c3, c4) =
  BoxStyle (c1 / 10) (c2 / 10) ((c3 - c1) / 10) ((c4 - c2) / 10).
Proof.
  unfold isDegenerate, getStyleFromBox. intros ->. reflexivity.
Qed.

(** C1. A pixel point converted to normalized coordinates and then to the
    percentage descriptor of [getStyleFromBox] gives back its relative
    position in the surface, and, scaled by the surface, the pixel point
    itself; this holds for both corners of the box and for every surface of
    positive size.  (Numbers are exact rationals, so the reconstruction is
    exact.) *)
Theorem normalized_display_roundtrip
    (rect : DOMRect) (x y x2 y2 : number) :
  0 < rect_width rect ->
  0 < rect_height rect ->
  isDegenerate (toNormalized y (rect_height rect),
                toNormalized x (rect_width rect),
                toNormalized y2 (rect_height rect),
                toNormalized x2 (rect_width rect)) = false ->
  exists top left height width,
    getStyleFromBox (toNormalized y (rect_height rect),
                     toNormalized x (rect_width rect),
                     toNormalized y2 (rect_height rect),
                     toNormalized x2 (rect_width rect))
    = BoxStyle top left height width /\
    top == 100 * (y / rect_height rect) /\
    left == 100 * (x / rect_width rect) /\
    top / 100 * rect_height rect == y /\
    left / 100 * rect_width rect == x /\
    (top + height) / 100 * rect_height rect == y2 /\
    (left + width) / 100 * rect_width rect == x2.
Proof.
  intros Hw Hh Hnd.
  rewrite (getStyleFromBox_visible _ _ _ _ Hnd).
  do 4 eexists. split; [reflexivity |].
  unfold toNormalized.
  repeat split; field; lra.
Qed.

Lemma normalized_display_roundtrip_witness :
  0 < rect_width (mkRect 10 20 800 600) /\
  0 < rect_height (mkRect 10 20 800 600) /\
  exists top left height width,
    getStyleFromBox (toNormalized 150 600, toNormalized 200 800,
                     toNormalized 300 600, toNormalized 400 800)
    = BoxStyle top left height width /\
    top == 100 * (150 / 600) /\
    left == 100 * (200 / 800) /\
    top / 100 * 600 == 150 /\
    left / 100 * 800 == 200 /\
    (top + height) / 100 * 600 == 300 /\
    (left + width) / 100 * 800 == 400.
Proof.
  split; [reflexivity |]. split; [reflexivity |].
  apply (normalized_display_roundtrip (mkRect 10 20 800 600) 200 150 400 300);
    reflexivity.
Defined.

(** A completed drag never produces the degenerate sentinel. *)
Lemma completed_drag_not_degenerate
    (rect : DOMRect) (ds : DragStart) (cd : Point) (annType : AnnotationType) :
  0 < rect_width rect ->
  0 < rect_height rect ->
  belowThreshold ds cd = false ->
  isDegenerate (newCoords rect ds cd annType) = false.
Proof.
  intros Hw Hh Hth.
  apply not_true_iff_false. intros Hd.
  apply (completed_drag_moves ds cd Hth).
  destruct annType; cbn in Hd; apply isDegenerate_true in Hd;
    destruct Hd as (H1 & H2 & H3 & H4).
  - assert (Ey1 : toNormalized (ds_y ds) (rect_height rect) == 0).
    { apply Qle_antisym.
      - rewrite <- H3. apply Q.le_max_l.
      - rewrite <- H1. apply Q.le_min_l. }
    assert (Ey2 : toNormalized (py cd) (rect_height rect) == 0).
    { apply Qle_antisym.
      - rewrite <- H3. apply Q.le_max_r.
      - rewrite <- H1. apply Q.le_min_r. }
    assert (Ex1 : toNormalized (ds_x ds) (rect_width rect) == 0).
    { apply Qle_antisym.
      - rewrite <- H4. apply Q.le_max_l.
      - rewrite <- H2. apply Q.le_min_l. }
    assert (Ex2 : toNormalized (px cd) (rect_width rect) == 0).
    { apply Qle_antisym.
      - rewrite <- H4. apply Q.le_max_r.
      - rewrite <- H2. apply Q.le_min_r. }
    apply toNormalized_zero in Ey1, Ey2, Ex1, Ex2; trivial.
    split; [rewrite Ex1, Ex2 | rewrite Ey1, Ey2]; reflexivity.
  - apply toNormalized_zero in H1, H2, H3, H4; trivial.
    split; [rewrite H2, H4 | rewrite H1, H3]; reflexivity.
Qed.

(** ** Drawing state machine *)

Lemma handleMouseUp_completed
    (s : State) (e : MouseEvent) (ds : DragStart) (cd : Point) :
  dragStart s = Some ds ->
  currentDrag s = Some cd ->
  belowThreshold ds cd = false ->
  step s (MouseUp e) =
  setCurrentDrag None
    (setDragStart None
       (appendAnnotation (ds_type ds)
          (newAnnotation (currentTargetRect e) ds cd
             (orElse (Partial.annotationType (editForm s)) box)) s)).
Proof.
  intros Hds Hcd Hth.
  unfold step, dispatch, handler, handleMouseUp, bind, render. cbn.
  rewrite Hds, Hcd, Hth. reflexivity.
Qed.

Lemma handleMouseUp_discarded
    (s : State) (e : MouseEvent) (ds : DragStart) (cd : Point) :
  dragStart s = Some ds ->
  currentDrag s = Some cd ->
  belowThreshold ds cd = true ->
  step s (MouseUp e) = setCurrentDrag None (setDragStart None s).
Proof.
  intros Hds Hcd Hth.
  unfold step, dispatch, handler, handleMouseUp, bind, render. cbn.
  rewrite Hds, Hcd, Hth. reflexivity.
Qed.

(** A release within five pixels of the press on both axes is a click: the
    buffer gains nothing. *)
Lemma click_creates_nothing
    (s : State) (e : MouseEvent) (ds : DragStart) (cd : Point) (type : Side) :
  dragStart s = Some ds ->
  currentDrag s = Some cd ->
  Qabs (ds_x ds - px cd) < 5 ->
  Qabs (ds_y ds - py cd) < 5 ->
  bufferElems type (step s (MouseUp e)) = bufferElems type s /\
  dragStart (step s (MouseUp e)) = None.
Proof.
  intros Hds Hcd Hx Hy.
  assert (Hth : belowThreshold ds cd = true).
  { unfold belowThreshold, Qltb. apply andb_true_iff.
    split; apply negb_true_iff, not_true_iff_false;
      intros Hle; apply Qle_bool_iff in Hle; lra. }
  rewrite (handleMouseUp_discarded s e ds cd Hds Hcd Hth).
  split; reflexivity.
Qed.

(** [filterIndex] with a test that holds from [k] on keeps the whole list. *)
Lemma filterIndex_all {A : Type} (keep : nat -> bool) (l : list A) :
  forall k : nat,
    (forall j, (k <= j)%nat -> keep j = true) -> filterIndex keep k l = l.
Proof.
  induction l as [| x l IH]; intros k Hkeep; cbn.
  - reflexivity.
  - rewrite (Hkeep k (Nat.le_refl k)). f_equal.
    apply IH. intros j Hj. apply Hkeep. lia.
Qed.

(** The filter of [deleteAnnotation] removes the element at [index] and
    nothing else; the elements after it move down by one. *)
Lemma filterIndex_removes {A : Type} (l : list A) :
  forall k index : nat,
    filterIndex (fun i => negb (i =? k + index)%nat) k l
    = firstn index l ++ skipn (S index) l.
Proof.
  induction l as [| x l IH]; intros k index; cbn.
  - now destruct index.
  - destruct index as [| index]; cbn.
    + rewrite Nat.add_0_r, Nat.eqb_refl. cbn.
      apply filterIndex_all. intros j Hj.
      apply negb_true_iff, Nat.eqb_neq. lia.
    + assert (Hk : (k =? k + S index)%nat = false)
        by (apply Nat.eqb_neq; lia).
      rewrite Hk. cbn. f_equal.
      replace (k + S index)%nat with (S k + index)%nat by lia.
      apply IH.
Qed.

Lemma deleteAnnotation_removes (s : State) (type : Side) (index : nat) :
  bufferElems type (step s (DeleteAnnotation type index))
  = firstn index (bufferElems type s) ++ skipn (S index) (bufferElems type s).
Proof.
  unfold step, dispatch, handler, deleteAnnotation, bind, enqueue,
    removeAnnotation.
  destruct type; cbn; apply (filterIndex_removes _ 0%nat index).
Qed.

Example delete_middle_of_three (a b c : Annotation) :
  filterIndex (fun i => negb (i =? 1)%nat) 0 [a; b; c] = [a; c].
Proof. reflexivity. Qed.

Lemma bufferElems_appendAnnotation
    (type : Side) (ann : Annotation) (s : State) :
  bufferElems type
    (setCurrentDrag None (setDragStart None (appendAnnotation type ann s)))
  = bufferElems type s ++ [ann].
Proof. destruct type; reflexivity. Qed.

Lemma toNormalized_le (a b dimension : number) :
  0 < dimension -> a <= b ->
  toNormalized a dimension <= toNormalized b dimension.
Proof.
  intros Hd Hab. unfold toNormalized, Qdiv.
  apply Qmult_le_compat_r; [| discriminate].
  apply Qmult_le_compat_r; [exact Hab |].
  apply Qlt_le_weak, Qinv_lt_0_compat, Hd.
Qed.

Lemma toNormalized_eq (a b dimension : number) :
  a == b -> toNormalized a dimension == toNormalized b dimension.
Proof. intros H. unfold toNormalized. now rewrite H. Qed.

(** On a surface of positive size the conversion commutes with [min] and
    [max]: the corners of the stored box are the converted corners of the
    pixel rectangle. *)
Lemma toNormalized_min (a b dimension : number) :
  0 < dimension ->
  Qmin (toNormalized a dimension) (toNormalized b dimension)
  == toNormalized (Qmin a b) dimension.
Proof.
  intros Hd.
  destruct (Q.min_spec a b) as [[Hlt Hmin] | [Hle Hmin]];
    rewrite (toNormalized_eq _ _ dimension Hmin).
  - apply Q.min_l, toNormalized_le; [exact Hd | now apply Qlt_le_weak].
  - apply Q.min_r, toNormalized_le; assumption.
Qed.

Lemma toNormalized_max (a b dimension : number) :
  0 < dimension ->
  Qmax (toNormalized a dimension) (toNormalized b dimension)
  == toNormalized (Qmax a b) dimension.
Proof.
  intros Hd.
  destruct (Q.max_spec a b) as [[Hlt Hmax] | [Hle Hmax]];
    rewrite (toNormalized_eq _ _ dimension Hmax).
  - apply Q.max_r, toNormalized_le; [exact Hd | now apply Qlt_le_weak].
  - apply Q.max_l, toNormalized_le; assumption.
Qed.

(** C2. A completed drag in rectangle mode on a surface of positive size
    appends to the buffer an annotation of kind [box] whose coords are
    exactly [[min(startY, endY), min(startX, endX), max(startY, endY),
    max(startX, endX)]] of the normalized end points, that is the normalized
    corners [[yMin, xMin, yMax, xMax]] of the pixel rectangle; they satisfy
    [coords[0] <= coords[2]] and [coords[1] <= coords[3]], and the three
    other drag directions over the same two corner points give the same
    coords. *)
Theorem box_drag_coords_normalized
    (s : State) (e : MouseEvent) (ds : DragStart) (cd : Point) :
  dragStart s = Some ds ->
  currentDrag s = Some cd ->
  belowThreshold ds cd = false ->
  orElse (Partial.annotationType (editForm s)) box = box ->
  0 < rect_width (currentTargetRect e) ->
  0 < rect_height (currentTargetRect e) ->
  let rect := currentTargetRect e in
  let startX := toNormalized (ds_x ds) (rect_width rect) in
  let startY := toNormalized (ds_y ds) (rect_height rect) in
  let endX := toNormalized (px cd) (rect_width rect) in
  let endY := toNormalized (py cd) (rect_height rect) in
  let ann := newAnnotation rect ds cd box in
  bufferElems (ds_type ds) (step s (MouseUp e))
    = bufferElems (ds_type ds) s ++ [ann] /\
  type ann = box /\
  coords ann = (Qmin startY endY, Qmin startX endX,
                Qmax startY endY, Qmax startX endX) /\
  coordsEq (coords ann)
    (toNormalized (Qmin (ds_y ds) (py cd)) (rect_height rect),
     toNormalized (Qmin (ds_x ds) (px cd)) (rect_width rect),
     toNormalized (Qmax (ds_y ds) (py cd)) (rect_height rect),
     toNormalized (Qmax (ds_x ds) (px cd)) (rect_width rect)) /\
  (let '(c0, c1, c2, c3) := coords ann in c0 <= c2 /\ c1 <= c3) /\
  (forall t1 t2 t3 : Side,
     coordsEq (newCoords rect (mkDragStart (px cd) (py cd) t1)
                 (mkPoint (ds_x ds) (ds_y ds)) box) (coords ann) /\
     coordsEq (newCoords rect (mkDragStart (px cd) (ds_y ds) t2)
                 (mkPoint (ds_x ds) (py cd)) box) (coords ann) /\
     coordsEq (newCoords rect (mkDragStart (ds_x ds) (py cd) t3)
                 (mkPoint (px cd) (ds_y ds)) box) (coords ann)).
Proof.
  intros Hds Hcd Hth Hkind Hw Hh rect startX startY endX endY ann.
  split.
  { rewrite (handleMouseUp_completed s e ds cd Hds Hcd Hth), Hkind.
    apply bufferElems_appendAnnotation. }
  split; [reflexivity |].
  split; [reflexivity |].
  split.
  { cbn. repeat split.
    - apply toNormalized_min, Hh.
    - apply toNormalized_min, Hw.
    - apply toNormalized_max, Hh.
    - apply toNormalized_max, Hw. }
  split.
  { cbn. split.
    - eapply Qle_trans; [apply Q.le_min_l | apply Q.le_max_l].
    - eapply Qle_trans; [apply Q.le_min_l | apply Q.le_max_l]. }
  intros t1 t2 t3. cbn.
  repeat split;
    first [ reflexivity | apply Q.min_comm | apply Q.max_comm ].
Qed.

Lemma box_drag_coords_normalized_witness :
  dragStart sampleBoxDrag = Some sampleStart /\
  currentDrag sampleBoxDrag = Some sampleEnd /\
  belowThreshold sampleStart sampleEnd = false /\
  orElse (Partial.annotationType (editForm sampleBoxDrag)) box = box /\
  0 < rect_width (currentTargetRect sampleUp) /\
  0 < rect_height (currentTargetRect sampleUp) /\
  bufferElems live (step sampleBoxDrag (MouseUp sampleUp))
    = bufferElems live sampleBoxDrag
      ++ [newAnnotation sampleRect sampleStart sampleEnd box] /\
  coords (newAnnotation sampleRect sampleStart sampleEnd box)
  = (Qmin (toNormalized 300 600) (toNormalized 150 600),
     Qmin (toNormalized 400 800) (toNormalized 200 800),
     Qmax (toNormalized 300 600) (toNormalized 150 600),
     Qmax (toNormalized 400 800) (toNormalized 200 800)).
Proof.
  repeat (split; [reflexivity |]).
  destruct (box_drag_coords_normalized sampleBoxDrag sampleUp sampleStart
              sampleEnd eq_refl eq_refl eq_refl eq_refl eq_refl eq_refl)
    as (_ & _ & Hcoords & _).
  exact Hcoords.
Defined.

(** C3. A completed drag in arrow mode appends to the buffer an annotation of
    kind [arrow] whose coords are exactly [[startY, startX, endY, endX]] in
    normalized coordinates, with no reordering; the same drag in the opposite
    direction gives a different tuple. *)
Theorem arrow_drag_coords_directional
    (s : State) (e : MouseEvent) (ds : DragStart) (cd : Point) :
  dragStart s = Some ds ->
  currentDrag s = Some cd ->
  belowThreshold ds cd = false ->
  Partial.annotationType (editForm s) = Some arrow ->
  0 < rect_width (currentTargetRect e) ->
  0 < rect_height (currentTargetRect e) ->
  let rect := currentTargetRect e in
  let ann := newAnnotation rect ds cd arrow in
  bufferElems (ds_type ds) (step s (MouseUp e))
    = bufferElems (ds_type ds) s ++ [ann] /\
  type ann = arrow /\
  coords ann = (toNormalized (ds_y ds) (rect_height rect),
                toNormalized (ds_x ds) (rect_width rect),
                toNormalized (py cd) (rect_height rect),
                toNormalized (px cd) (rect_width rect)) /\
  (forall t : Side,
     ~ coordsEq (newCoords rect (mkDragStart (px cd) (py cd) t)
                   (mkPoint (ds_x ds) (ds_y ds)) arrow) (coords ann)).
Proof.
  intros Hds Hcd Hth Hkind Hw Hh rect ann.
  split.
  { rewrite (handleMouseUp_completed s e ds cd Hds Hcd Hth), Hkind.
    apply bufferElems_appendAnnotation. }
  split; [reflexivity |].
  split; [reflexivity |].
  intros t. cbn. intros (Hy & Hx & _ & _).
  apply (completed_drag_moves ds cd Hth). split.
  - symmetry. exact (toNormalized_inj _ _ _ Hw Hx).
  - symmetry. exact (toNormalized_inj _ _ _ Hh Hy).
Qed.

Lemma arrow_drag_coords_directional_witness :
  dragStart sampleArrowDrag = Some sampleStart /\
  currentDrag sampleArrowDrag = Some sampleEnd /\
  belowThreshold sampleStart sampleEnd = false /\
  Partial.annotationType (editForm sampleArrowDrag) = Some arrow /\
  0 < rect_width (currentTargetRect sampleUp) /\
  0 < rect_height (currentTargetRect sampleUp) /\
  bufferElems live (step sampleArrowDrag (MouseUp sampleUp))
    = bufferElems live sampleArrowDrag
      ++ [newAnnotation sampleRect sampleStart sampleEnd arrow].
Proof.
  repeat (split; [reflexivity |]).
  apply (arrow_drag_coords_directional sampleArrowDrag sampleUp sampleStart
           sampleEnd); reflexivity.
Defined.

Example arrow_drag_sample :
  bufferElems live (step sampleArrowDrag (MouseUp sampleUp))
  = [mkAnnotation box (100, 200, 300, 400);
     mkAnnotation arrow (300 / 600 * 1000, 400 / 800 * 1000,
                         150 / 600 * 1000, 200 / 800 * 1000)].
Proof. reflexivity. Qed.

(** ** Renderers *)

Lemma getStyleFromBox_degenerate (c : Coords) :
  isDegenerate c = true -> getStyleFromBox c = DisplayNone.
Proof.
  destruct c as [[[c1 c2] c3] c4]. unfold isDegenerate, getStyleFromBox.
  intros ->. reflexivity.
Qed.

Lemma renderAnnotation_degenerate
    (s : State) (issueId : option string) (isDesign : bool)
    (annotation : Annotation) (idx annIndex : nat) :
  isDegenerate (coords annotation) = true ->
  renderAnnotation s issueId isDesign annotation idx annIndex = None.
Proof.
  unfold renderAnnotation, isDegenerate.
  destruct (coords annotation) as [[[c1 c2] c3] c4].
  intros ->. reflexivity.
Qed.

Lemma Qmin_zero_zero (a b : number) : a == 0 -> b == 0 -> Qmin a b == 0.
Proof. intros -> ->. reflexivity. Qed.

Lemma Qmax_zero_zero (a b : number) : a == 0 -> b == 0 -> Qmax a b == 0.
Proof. intros -> ->. reflexivity. Qed.

(** C7 (as amended). An annotation with coords [[0,0,0,0]] gets no overlay
    from the interactive renderer, whatever its kind, and the box style of
    both renderers is [display: none] for it, so the box the export creates
    for it is not shown.  The crop view does not set it aside: the crop box of
    a side is the coords of the first annotation of that side whatever they
    are, and for a degenerate first annotation the crop is positioned at
    0% 0% of the image. *)
Theorem degenerate_annotation_rendering
    (s : State) (issueId : option string) (isDesign : bool)
    (annotation : Annotation) (idx annIndex : nat)
    (issue : Issue) (side : Side) (rest : list Annotation) (src : string)
    (zoomLevel : number) :
  isDegenerate (coords annotation) = true ->
  annotationsOf issue side = annotation :: rest ->
  src <> EmptyString ->
  renderAnnotation s issueId isDesign annotation idx annIndex = None /\
  getStyleFromBox (coords annotation) = DisplayNone /\
  getStyle (coords annotation) = DisplayNone /\
  exportVisible (createBox (coords annotation) idx) = false /\
  (type annotation = box ->
   exportVisible (exportAnnotation idx annotation) = false) /\
  cropBox issue side = coords annotation /\
  exists style,
    getCropStyle issue (Some src) side zoomLevel = Some style /\
    backgroundImage style = src /\
    backgroundPositionX style == 0 /\
    backgroundPositionY style == 0 /\
    backgroundSize style = zoomLevel.
Proof.
  intros Hdeg Hfirst Hsrc.
  pose proof (getStyleFromBox_degenerate _ Hdeg) as Hstyle.
  assert (Hcrop : cropBox issue side = coords annotation).
  { unfold cropBox. unfold annotationsOf in Hfirst.
    destruct side; rewrite Hfirst; reflexivity. }
  split; [now apply renderAnnotation_degenerate |].
  split; [exact Hstyle |].
  split; [now rewrite getStyle_getStyleFromBox |].
  split.
  { unfold createBox. rewrite getStyle_getStyleFromBox, Hstyle. reflexivity. }
  split.
  { intros Hbox. unfold exportAnnotation, createBox. rewrite Hbox.
    rewrite getStyle_getStyleFromBox, Hstyle. reflexivity. }
  split; [exact Hcrop |].
  unfold getCropStyle. rewrite Hcrop.
  assert (Ht : truthy (Some src) = true).
  { cbn. apply negb_true_iff. now apply String.eqb_neq. }
  rewrite Ht.
  destruct (coords annotation) as [[[y1 x1] y2] x2].
  apply isDegenerate_true in Hdeg. destruct Hdeg as (Hy1 & Hx1 & Hy2 & Hx2).
  eexists. split; [reflexivity |]. cbn.
  split; [reflexivity |].
  split; [| split; [| reflexivity]].
  - rewrite (Qmin_zero_zero _ _ Hx1 Hx2), (Qmax_zero_zero _ _ Hx1 Hx2).
    reflexivity.
  - rewrite (Qmin_zero_zero _ _ Hy1 Hy2), (Qmax_zero_zero _ _ Hy1 Hy2).
    reflexivity.
Qed.

Lemma degenerate_annotation_rendering_witness :
  isDegenerate (coords (mkAnnotation arrow (0, 0, 0, 0))) = true /\
  annotationsOf sentinelFirstIssue live
    = mkAnnotation box (0, 0, 0, 0) :: [mkAnnotation box (100, 200, 300, 400)] /\
  "live.png"%string <> EmptyString /\
  renderAnnotation sampleEditing (Some "7"%string) false
    (mkAnnotation box (0, 0, 0, 0)) 0 0 = None /\
  cropBox sentinelFirstIssue live = (0, 0, 0, 0).
Proof.
  split; [reflexivity |]. split; [reflexivity |].
  split; [discriminate |].
  pose proof (degenerate_annotation_rendering sampleEditing
                (Some "7"%string) false (mkAnnotation box (0, 0, 0, 0)) 0 0
                sentinelFirstIssue live [mkAnnotation box (100, 200, 300, 400)]
                "live.png"%string 300 eq_refl eq_refl) as H.
  split; [apply H; discriminate | apply H; discriminate].
Defined.

(** C7 as stated does not hold: the crop view of an issue whose live side
    holds the sentinel followed by a real box takes the sentinel as its crop
    box, not the real box, and renders a crop for it. *)
Lemma degenerate_crop_target_counterexample :
  isDegenerate (cropBox sentinelFirstIssue live) = true /\
  cropBox sentinelFirstIssue live <> (100, 200, 300, 400) /\
  getCropStyle sentinelFirstIssue (Some "live.png"%string) live 300
  = Some (mkCropStyle "live.png" ((0 + 0) / 2 / 10) ((0 + 0) / 2 / 10) 300).
Proof.
  split; [reflexivity |]. split; [discriminate | reflexivity].
Qed.

(** The arrow path of the export has no sentinel test: it lays out a line and
    a badge for a degenerate arrow, where the interactive renderer returns
    nothing. *)
Lemma export_arrow_sentinel_shown :
  exportAnnotation 0 (mkAnnotation arrow (0, 0, 0, 0))
    = ExportArrow 0 0 0 0 (0 - 10) (0 - 10) 1 /\
  exportVisible (exportAnnotation 0 (mkAnnotation arrow (0, 0, 0, 0))) = true /\
  renderAnnotation sampleEditing (Some "1"%string) false
    (mkAnnotation arrow (0, 0, 0, 0)) 0 0 = None.
Proof. repeat split. Qed.

(** A side without annotation is cropped on the fallback box, at 0% 0% of the
    image. *)
Lemma getCropStyle_no_annotation
    (issue : Issue) (type : Side) (src : string) (zoomLevel : number) :
  annotationsOf issue type = [] ->
  src <> EmptyString ->
  cropBox issue type = (0, 0, 0, 0) /\
  getCropStyle issue (Some src) type zoomLevel
  = Some (mkCropStyle src ((0 + 0) / 2 / 10) ((0 + 0) / 2 / 10) zoomLevel).
Proof.
  intros Hnone Hsrc.
  assert (Hbox : cropBox issue type = (0, 0, 0, 0)).
  { unfold cropBox. unfold annotationsOf in Hnone.
    destruct type; rewrite Hnone; reflexivity. }
  split; [exact Hbox |].
  unfold getCropStyle. rewrite Hbox.
  assert (Ht : truthy (Some src) = true).
  { cbn. apply negb_true_iff. now apply String.eqb_neq. }
  rewrite Ht. reflexivity.
Qed.

(** ** Collaborator adapter *)

Lemma annotationsOfBox_four (c1 c2 c3 c4 : number) :
  annotationsOfBox (Some [c1; c2; c3; c4]) = [mkAnnotation box (c1, c2, c3, c4)].
Proof. reflexivity. Qed.

Lemma annotationsOfBox_malformed (b : list number) :
  List.length b <> 4%nat -> annotationsOfBox (Some b) = [].
Proof.
  intros H.
  destruct b as [| c1 [| c2 [| c3 [| c4 [| c5 b]]]]];
    try reflexivity.
  exfalso. apply H. reflexivity.
Qed.

Lemma transformedIssues_length (l : list Raw.t) (fresh : nat) :
  List.length (fst (transformedIssues fresh l)) = List.length l.
Proof.
  revert fresh. induction l as [| raw l IH]; intros fresh; cbn.
  - reflexivity.
  - now rewrite IH.
Qed.

(** The [k]-th transformed issue is the transformation of the [k]-th raw
    issue, at some value of the allocation counter. *)
Lemma transformedIssues_nth (l : list Raw.t) :
  forall (fresh k : nat) (raw : Raw.t),
    nth_error l k = Some raw ->
    exists f : nat,
      (fresh <= f)%nat /\
      nth_error (fst (transformedIssues fresh l)) k
      = Some (fst (transformIssue f raw)).
Proof.
  induction l as [| r l IH]; intros fresh k raw Hk.
  - destruct k; discriminate.
  - destruct k as [| k]; cbn in *.
    + injection Hk as ->. exists fresh. split; [lia | reflexivity].
    + destruct (IH (S (S fresh)) k raw Hk) as (f & Hle & Hf).
      exists f. split; [lia | exact Hf].
Qed.

(** C6. On a result that has its list of specific issues the adapter does not
    fail, keeps the issues in order and gives each of them: one [box]
    annotation with the four components of [box_2d] (respectively
    [design_box_2d]) when that box is present with exactly four components,
    and an empty sequence when it is absent or has another number of
    components. *)
Theorem adapter_box_to_annotations
    (fresh : nat) (rawResult : RawResult) (l : list Raw.t) :
  raw_specificIssues rawResult = Some l ->
  exists (result : AnalysisResult) (fresh' : nat),
    transformResult fresh rawResult = inl (result, fresh') /\
    List.length (specificIssues result) = List.length l /\
    forall (k : nat) (raw : Raw.t),
      nth_error l k = Some raw ->
      exists i : Issue,
        nth_error (specificIssues result) k = Some i /\
        id i = Raw.id raw /\
        annotationType i = Some box /\
        (forall c1 c2 c3 c4,
           Raw.box_2d raw = Some [c1; c2; c3; c4] ->
           elems (liveAnnotations i) = [mkAnnotation box (c1, c2, c3, c4)]) /\
        (Raw.box_2d raw = None -> elems (liveAnnotations i) = []) /\
        (forall b, Raw.box_2d raw = Some b -> List.length b <> 4%nat ->
                   elems (liveAnnotations i) = []) /\
        (forall c1 c2 c3 c4,
           Raw.design_box_2d raw = Some [c1; c2; c3; c4] ->
           elems (designAnnotations i) = [mkAnnotation box (c1, c2, c3, c4)]) /\
        (Raw.design_box_2d raw = None -> elems (designAnnotations i) = []) /\
        (forall b, Raw.design_box_2d raw = Some b -> List.length b <> 4%nat ->
                   elems (designAnnotations i) = []).
Proof.
  intros Hl. unfold transformResult. rewrite Hl.
  do 2 eexists. split; [reflexivity |]. cbn.
  split; [apply transformedIssues_length |].
  intros k raw Hk.
  destruct (transformedIssues_nth l fresh k raw Hk) as (f & _ & Hf).
  eexists. split; [exact Hf |]. cbn.
  split; [reflexivity |]. split; [reflexivity |].
  repeat split.
  - intros c1 c2 c3 c4 ->. reflexivity.
  - intros ->. reflexivity.
  - intros b -> Hb. now apply annotationsOfBox_malformed.
  - intros c1 c2 c3 c4 ->. reflexivity.
  - intros ->. reflexivity.
  - intros b -> Hb. now apply annotationsOfBox_malformed.
Qed.

(** The end-to-end scenario of the adapter, through the theorem. *)
Lemma adapter_box_to_annotations_witness :
  raw_specificIssues sampleRawResult = Some [sampleRawIssue] /\
  exists (result : AnalysisResult) (fresh' : nat) (i : Issue),
    transformResult 0 sampleRawResult = inl (result, fresh') /\
    nth_error (specificIssues result) 0 = Some i /\
    elems (liveAnnotations i) = [mkAnnotation box (100, 200, 300, 400)] /\
    elems (designAnnotations i) = [mkAnnotation box (110, 210, 310, 410)].
Proof.
  split; [reflexivity |].
  destruct (adapter_box_to_annotations 0 sampleRawResult [sampleRawIssue]
              eq_refl) as (result & fresh' & Hres & _ & Hall).
  destruct (Hall 0%nat sampleRawIssue eq_refl)
    as (i & Hi & _ & _ & Hlive & _ & _ & Hdesign & _).
  exists result, fresh', i.
  split; [exact Hres |]. split; [exact Hi |].
  split; [apply Hlive | apply Hdesign]; reflexivity.
Defined.

Example adapter_scenario :
  transformResult 0 sampleRawResult
  = inl (mkAnalysisResult 90 []
           [mkIssue "1" "Button colour" "The button is green."
              (Some [100; 200; 300; 400]) (Some [110; 210; 310; 410])
              (mkArr 0 [mkAnnotation box (100, 200, 300, 400)])
              (mkArr 1 [mkAnnotation box (110, 210, 310, 410)])
              "Blue button" "Green button" "color: blue" High (Some box)],
         2%nat).
Proof. reflexivity. Qed.

Example adapter_malformed_boxes :
  annotationsOfBox None = [] /\
  annotationsOfBox (Some []) = [] /\
  annotationsOfBox (Some [1; 2; 3]) = [] /\
  annotationsOfBox (Some [1; 2; 3; 4; 5]) = [].
Proof. repeat split. Qed.

(** ** Handlers *)

(** [ret] and [bind] obey the monad laws at every rendered and pending
    state. *)
Lemma bind_ret_l {A B : Type} (a : A) (k : A -> Handler B) (r p : State) :
  bind (ret a) k r p = k a r p.
Proof. reflexivity. Qed.

Lemma bind_ret_r {A : Type} (m : Handler A) (r p : State) :
  bind m ret r p = m r p.
Proof. unfold bind, ret. now destruct (m r p). Qed.

Lemma bind_assoc {A B C : Type}
    (m : Handler A) (k : A -> Handler B) (h : B -> Handler C) (r p : State) :
  bind (bind m k) h r p = bind m (fun a => bind (k a) h) r p.
Proof. reflexivity. Qed.

(** Of two value updates of one state variable in one handler, the later one
    is the one that counts. *)
Lemma setIssues_last_wins (v w : list Issue) (s : State) :
  dispatch (enqueue (setIssues v) ;; enqueue (setIssues w)) s = setIssues w s.
Proof. reflexivity. Qed.

(** ** Editing state machine *)

Tactic Notation "destruct_find" ident(H) :=
  match goal with
  | |- context [find ?f ?l] => destruct (find f l) eqn:H
  end.

Ltac unfold_handlers :=
  unfold step, dispatch, handler, handleMouseDown, handleMouseMove,
    handleMouseUp, handleMouseLeave, deleteAnnotation, editField,
    selectIssue, createIssue, startEdit, deleteIssue, saveEdit, cancelEdit,
    bind, render, enqueue, ret, newArr.

Lemma strictEq_Some (v e : string) : strictEq v (Some e) = String.eqb v e.
Proof. reflexivity. Qed.

Lemma isNewUnsaved_true (o : Issue) :
  isNewUnsaved o = true <->
  elems (liveAnnotations o) = [] /\ elems (designAnnotations o) = []
  /\ title o = "New Issue"%string.
Proof.
  unfold isNewUnsaved.
  rewrite !andb_true_iff, !Nat.eqb_eq, String.eqb_eq, !length_zero_iff_nil.
  tauto.
Qed.

Lemma isNewUnsaved_false (o : Issue) :
  isNewUnsaved o = false <->
  elems (liveAnnotations o) <> [] \/ elems (designAnnotations o) <> []
  \/ title o <> "New Issue"%string.
Proof.
  rewrite <- not_true_iff_false, isNewUnsaved_true.
  split.
  - intros H.
    destruct (elems (liveAnnotations o)) as [| a l]; [| left; discriminate].
    destruct (elems (designAnnotations o)) as [| a l]; [| right; left; discriminate].
    right; right. intros Ht. apply H. auto.
  - intros [H | [H | H]] (H1 & H2 & H3); contradiction.
Qed.

(** [cancelEdit] removes the records with the edited identifier when the
    committed one is a new unsaved issue. *)
Lemma cancelEdit_removes (s : State) (o : Issue) :
  find (fun i => strictEq (id i) (editingIssueId s)) (issues s) = Some o ->
  isNewUnsaved o = true ->
  step s CancelEdit =
  setEditForm Partial.empty
    (setEditingIssueId None
       (setIssues
          (filter (fun i => negb (strictEq (id i) (editingIssueId s)))
                  (issues s)) s)).
Proof.
  intros Hfind Hnew. unfold_handlers. cbn. rewrite Hfind, Hnew. reflexivity.
Qed.

Lemma cancelEdit_keeps (s : State) :
  (forall o,
     find (fun i => strictEq (id i) (editingIssueId s)) (issues s) = Some o ->
     isNewUnsaved o = false) ->
  step s CancelEdit = setEditForm Partial.empty (setEditingIssueId None s).
Proof.
  intros Hkeep. unfold_handlers. cbn.
  destruct_find Hfind; [| reflexivity].
  rewrite (Hkeep _ eq_refl). reflexivity.
Qed.

Lemma cancelEdit_resets (s : State) :
  editingIssueId (step s CancelEdit) = None /\
  editForm (step s CancelEdit) = Partial.empty.
Proof.
  unfold_handlers. cbn. split; reflexivity.
Qed.

(** The buffer events touch neither the committed collection nor the
    identifier under edit. *)
Lemma buffer_event_frame (s : State) (ev : Event) :
  isBufferEvent ev = true ->
  issues (step s ev) = issues s /\
  editingIssueId (step s ev) = editingIssueId s.
Proof.
  destruct ev; try discriminate; intros _; unfold_handlers; cbn.
  - destruct (truthy (editingIssueId s)); split; reflexivity.
  - destruct (dragStart s); split; reflexivity.
  - destruct (dragStart s) as [ds |]; [| split; reflexivity].
    destruct (currentDrag s) as [cd |]; [| split; reflexivity].
    destruct (belowThreshold ds cd); split; reflexivity.
  - destruct (dragStart s); split; reflexivity.
  - split; reflexivity.
  - split; reflexivity.
  - split; reflexivity.
  - split; reflexivity.
  - split; reflexivity.
Qed.

Lemma buffer_events_frame (evs : list Event) :
  forall s : State,
    forallb isBufferEvent evs = true ->
    issues (run s evs) = issues s /\
    editingIssueId (run s evs) = editingIssueId s.
Proof.
  induction evs as [| ev evs IH]; intros s Hall.
  - split; reflexivity.
  - cbn in Hall. apply andb_true_iff in Hall. destruct Hall as [Hev Hall].
    change (run s (ev :: evs)) with (run (step s ev) evs).
    destruct (IH (step s ev) Hall) as [Hi He].
    destruct (buffer_event_frame s ev Hev) as [Hi' He'].
    rewrite Hi, He. split; assumption.
Qed.

Lemma startEdit_editing (s : State) (issue : Issue) :
  editingIssueId (step s (StartEdit issue)) = Some (id issue).
Proof. reflexivity. Qed.

(** [startEdit] leaves the committed collection alone unless it has to cancel
    the edit of another issue. *)
Lemma startEdit_issues_NoEdit (s : State) (issue : Issue) :
  truthy (editingIssueId s) = false ->
  issues (step s (StartEdit issue)) = issues s.
Proof.
  intros Hno. unfold_handlers. cbn. rewrite Hno. reflexivity.
Qed.

Lemma filter_removes_id (target : string) (l : list Issue) (i : Issue) :
  In i (filter (fun j => negb (String.eqb (id j) target)) l) ->
  id i <> target.
Proof.
  intros Hin. apply filter_In in Hin. destruct Hin as [_ Hne].
  apply negb_true_iff in Hne. now apply String.eqb_neq.
Qed.

Lemma filter_keeps_others (target : string) (l : list Issue) (i : Issue) :
  In i l -> id i <> target ->
  In i (filter (fun j => negb (String.eqb (id j) target)) l).
Proof.
  intros Hin Hne. apply filter_In. split; [exact Hin |].
  apply negb_true_iff. now apply String.eqb_neq.
Qed.

Lemma find_strictEq (e : string) (l : list Issue) :
  find (fun i => strictEq (id i) (Some e)) l
  = find (fun i => String.eqb (id i) e) l.
Proof. reflexivity. Qed.

(** C4. A session opened by [startEdit] on an issue and made of buffer events
    ends, on [cancelEdit], in [NoEdit] with an empty buffer.  When the
    committed version of the issue has both annotation sequences empty and the
    title "New Issue", the committed collection loses the records with that
    identifier and nothing else; when it has an annotation or another title,
    the committed collection is the one [startEdit] left, which is the one
    before [startEdit] when no other edit was open. *)
Theorem cancelEdit_session
    (s0 : State) (issue orig : Issue) (evs : list Event) :
  forallb isBufferEvent evs = true ->
  committed (id issue) (step s0 (StartEdit issue)) = Some orig ->
  let s1 := step s0 (StartEdit issue) in
  let s' := step (run s1 evs) CancelEdit in
  (truthy (editingIssueId s0) = false -> issues s1 = issues s0) /\
  editingIssueId s' = None /\
  editForm s' = Partial.empty /\
  (elems (liveAnnotations orig) = [] ->
   elems (designAnnotations orig) = [] ->
   title orig = "New Issue"%string ->
   issues s'
   = filter (fun i => negb (String.eqb (id i) (id issue))) (issues s1) /\
   (forall i, In i (issues s') -> id i <> id issue) /\
   (forall i, In i (issues s1) -> id i <> id issue -> In i (issues s'))) /\
  (elems (liveAnnotations orig) <> [] \/
   elems (designAnnotations orig) <> [] \/
   title orig <> "New Issue"%string ->
   issues s' = issues s1).
Proof.
  intros Hevs Horig s1 s'.
  destruct (buffer_events_frame evs s1 Hevs) as [Hissues Hediting].
  assert (Hed : editingIssueId (run s1 evs) = Some (id issue)).
  { rewrite Hediting. reflexivity. }
  assert (Hfind :
    find (fun i => strictEq (id i) (editingIssueId (run s1 evs)))
         (issues (run s1 evs)) = Some orig).
  { rewrite Hed, Hissues. exact Horig. }
  split; [apply startEdit_issues_NoEdit |].
  split; [apply cancelEdit_resets |].
  split; [apply cancelEdit_resets |].
  split.
  - intros Hl Hd Ht.
    assert (Hnew : isNewUnsaved orig = true) by (apply isNewUnsaved_true; auto).
    assert (E : issues s'
      = filter (fun i => negb (String.eqb (id i) (id issue))) (issues s1)).
    { unfold s'. rewrite (cancelEdit_removes _ orig Hfind Hnew).
      cbn [issues setEditForm setEditingIssueId setIssues].
      rewrite Hed, Hissues. reflexivity. }
    split; [exact E |]. rewrite E. split.
    + intros i. apply filter_removes_id.
    + intros i. apply filter_keeps_others.
  - intros Hkeep.
    assert (Hold : isNewUnsaved orig = false)
      by (apply isNewUnsaved_false; exact Hkeep).
    unfold s'. rewrite cancelEdit_keeps.
    + cbn [issues setEditForm setEditingIssueId]. exact Hissues.
    + intros o Ho. rewrite Hfind in Ho. injection Ho as <-. exact Hold.
Qed.

Lemma cancelEdit_session_witness :
  forallb isBufferEvent [SetTitle "Button color"; DeleteAnnotation live 0]
    = true /\
  committed (id sampleIssue)
    (step (mkState [sampleIssue] None None None None Partial.empty None None 2)
          (StartEdit sampleIssue)) = Some sampleIssue /\
  issues (step (run sampleEditing
                  [SetTitle "Button color"; DeleteAnnotation live 0])
               CancelEdit) = [sampleIssue].
Proof.
  split; [reflexivity |]. split; [reflexivity |].
  apply (cancelEdit_session
           (mkState [sampleIssue] None None None None Partial.empty None None 2)
           sampleIssue sampleIssue
           [SetTitle "Button color"; DeleteAnnotation live 0]
           eq_refl eq_refl).
  left. discriminate.
Defined.

(** Creating an issue and cancelling at once leaves the collection as it
    was. *)
Example create_then_cancel :
  issues (run (mkState [sampleIssue] None None None None Partial.empty
                 None None 2)
              [CreateIssue 1700000000000; CancelEdit]) = [sampleIssue].
Proof. reflexivity. Qed.

(** *** The buffer of a session is a full record *)

Lemma startEdit_editForm (s : State) (issue : Issue) :
  exists n : nat,
    (nextArr s <= n)%nat /\
    editForm (step s (StartEdit issue))
    = spreadIssue
        (mkIssue (id issue) (title issue) (description issue)
           (box_2d issue) (design_box_2d issue)
           (mkArr n (elems (liveAnnotations issue)))
           (mkArr (S n) (elems (designAnnotations issue)))
           (designReference issue) (liveObservation issue) (suggestion issue)
           (severity issue) (annotationType issue)).
Proof.
  unfold_handlers. cbn.
  destruct (truthy (editingIssueId s)
            && negb (strictEq (id issue) (editingIssueId s))).
  - cbn. destruct_find Hfind; [destruct (isNewUnsaved _) |]; cbn;
      eexists; (split; [| reflexivity]); lia.
  - cbn. eexists. split; [| reflexivity]. lia.
Qed.

Lemma buffer_event_full (s : State) (ev : Event) (b : Issue) :
  isBufferEvent ev = true ->
  editForm s = spreadIssue b ->
  exists b' : Issue, editForm (step s ev) = spreadIssue b' /\ id b' = id b.
Proof.
  assert (Hsame : editForm s = spreadIssue b ->
            exists b' : Issue, editForm s = spreadIssue b' /\ id b' = id b).
  { intros Hform. exists b. split; [exact Hform | reflexivity]. }
  destruct b as [bid bt bd bb bdb bl bde bdr blo bs bsev bat].
  destruct ev; try discriminate; intros _ Hform; unfold_handlers; cbn.
  - destruct (truthy (editingIssueId s)); cbn; auto.
  - destruct (dragStart s); cbn; auto.
  - destruct (dragStart s) as [ds |]; [| cbn; auto].
    destruct (currentDrag s) as [cd |]; [| cbn; auto].
    destruct (belowThreshold ds cd); [cbn; auto |].
    cbn. unfold appendAnnotation. cbn. rewrite Hform.
    destruct (ds_type ds); cbn.
    + eexists (mkIssue bid bt bd bb bdb bl _ bdr blo bs bsev bat).
      split; reflexivity.
    + eexists (mkIssue bid bt bd bb bdb _ bde bdr blo bs bsev bat).
      split; reflexivity.
  - destruct (dragStart s); cbn; auto.
  - unfold removeAnnotation. cbn. rewrite Hform.
    destruct type0; cbn.
    + eexists (mkIssue bid bt bd bb bdb bl _ bdr blo bs bsev bat).
      split; reflexivity.
    + eexists (mkIssue bid bt bd bb bdb _ bde bdr blo bs bsev bat).
      split; reflexivity.
  - rewrite Hform. cbn.
    exists (mkIssue bid v bd bb bdb bl bde bdr blo bs bsev bat).
    split; reflexivity.
  - rewrite Hform. cbn.
    exists (mkIssue bid bt v bb bdb bl bde bdr blo bs bsev bat).
    split; reflexivity.
  - rewrite Hform. cbn.
    exists (mkIssue bid bt bd bb bdb bl bde bdr blo bs v bat).
    split; reflexivity.
  - rewrite Hform. cbn.
    exists (mkIssue bid bt bd bb bdb bl bde bdr blo bs bsev (Some v)).
    split; reflexivity.
Qed.

Lemma buffer_events_full (evs : list Event) :
  forall (s : State) (b : Issue),
    forallb isBufferEvent evs = true ->
    editForm s = spreadIssue b ->
    exists b' : Issue, editForm (run s evs) = spreadIssue b' /\ id b' = id b.
Proof.
  induction evs as [| ev evs IH]; intros s b Hall Hform.
  - exists b. split; [exact Hform | reflexivity].
  - cbn in Hall. apply andb_true_iff in Hall. destruct Hall as [Hev Hall].
    change (run s (ev :: evs)) with (run (step s ev) evs).
    destruct (buffer_event_full s ev b Hev Hform) as (b1 & Hb1 & Hid1).
    destruct (IH (step s ev) b1 Hall Hb1) as (b2 & Hb2 & Hid2).
    exists b2. split; [exact Hb2 | congruence].
Qed.

Lemma saveEdit_editing (s : State) :
  truthy (editingIssueId s) = true ->
  step s SaveEdit =
  setEditForm Partial.empty
    (setEditingIssueId None
       (setIssues
          (map (fun i => if strictEq (id i) (editingIssueId s)
                         then mergeIssue i (editForm s) else i)
               (issues s)) s)).
Proof.
  intros Hed. unfold_handlers. cbn. rewrite Hed. reflexivity.
Qed.

(** With a falsy [editingIssueId] ([null] or the empty string) [saveEdit]
    returns at once: the component is not in its editing state. *)
Lemma saveEdit_not_editing (s : State) :
  truthy (editingIssueId s) = false -> step s SaveEdit = s.
Proof.
  intros Hno. unfold_handlers. cbn. rewrite Hno. reflexivity.
Qed.

(** C5. At the end of a session opened by [startEdit] and made of buffer
    events, with the component in its editing state ([editingIssueId] truthy),
    [saveEdit] leaves the machine in [NoEdit] with an empty buffer and
    a collection of the same length in which every record with another
    identifier is unchanged at its position, and the record with the edited
    identifier holds, at its position and under the same identifier, the
    fields and both annotation sequences of the buffer. *)
Theorem saveEdit_session (s0 : State) (issue : Issue) (evs : list Event) :
  forallb isBufferEvent evs = true ->
  truthy (editingIssueId (step s0 (StartEdit issue))) = true ->
  let s1 := step s0 (StartEdit issue) in
  let s := run s1 evs in
  let s' := step s SaveEdit in
  exists buffer : Issue,
    editForm s = spreadIssue buffer /\
    id buffer = id issue /\
    editingIssueId s' = None /\
    editForm s' = Partial.empty /\
    List.length (issues s') = List.length (issues s1) /\
    forall (k : nat) (i : Issue),
      nth_error (issues s1) k = Some i ->
      (id i <> id issue -> nth_error (issues s') k = Some i) /\
      (id i = id issue ->
       exists i' : Issue,
         nth_error (issues s') k = Some i' /\
         id i' = id issue /\
         title i' = title buffer /\
         description i' = description buffer /\
         severity i' = severity buffer /\
         designReference i' = designReference buffer /\
         liveObservation i' = liveObservation buffer /\
         suggestion i' = suggestion buffer /\
         liveAnnotations i' = liveAnnotations buffer /\
         designAnnotations i' = designAnnotations buffer /\
         (annotationType buffer <> None ->
          annotationType i' = annotationType buffer)).
Proof.
  intros Hevs Hid s1.
  destruct (buffer_events_frame evs s1 Hevs) as [Hissues Hediting].
  destruct (startEdit_editForm s0 issue) as (n & _ & Hform1).
  destruct (buffer_events_full evs s1 _ Hevs Hform1) as (buffer & Hbuf & Hbid).
  cbn in Hbid.
  change (editingIssueId s1) with (Some (id issue)) in Hediting.
  generalize dependent (run s1 evs). intros s Hissues Hed Hbuf. cbv zeta.
  assert (Htruthy : truthy (editingIssueId s) = true).
  { rewrite Hed. exact Hid. }
  exists buffer.
  split; [exact Hbuf |]. split; [exact Hbid |].
  rewrite (saveEdit_editing s Htruthy).
  cbn [issues editingIssueId editForm setEditForm setEditingIssueId setIssues].
  split; [reflexivity |]. split; [reflexivity |].
  rewrite Hed, Hbuf, Hissues.
  split; [apply length_map |].
  intros k i Hk. rewrite nth_error_map, Hk. cbn [option_map strictEq].
  split.
  - intros Hne. apply String.eqb_neq in Hne. rewrite Hne. reflexivity.
  - intros Heq. apply String.eqb_eq in Heq. rewrite Heq.
    eexists. split; [reflexivity |]. cbn.
    repeat split; try assumption.
    destruct (annotationType buffer); [reflexivity | contradiction].
Qed.

Lemma saveEdit_session_witness :
  forallb isBufferEvent [SetTitle "Button color"; SetSeverity Low] = true /\
  truthy (editingIssueId sampleEditing) = true /\
  exists buffer : Issue,
    editForm (run sampleEditing [SetTitle "Button color"; SetSeverity Low])
    = spreadIssue buffer /\
    id buffer = id sampleIssue.
Proof.
  split; [reflexivity |]. split; [reflexivity |].
  destruct (saveEdit_session
              (mkState [sampleIssue] None None None None Partial.empty
                 None None 2)
              sampleIssue [SetTitle "Button color"; SetSeverity Low]
              eq_refl eq_refl) as (buffer & Hbuf & Hid & _).
  exists buffer. split; [exact Hbuf | exact Hid].
Defined.

(** Drawing an arrow from (100, 100) to (400, 100) on the live surface of a
    new issue and saving it. *)
Example draw_arrow_and_save :
  let s := run (mkState [] None None None None Partial.empty None None 0)
             [CreateIssue 1700000000000;
              SetAnnotationType arrow;
              MouseDown (mkMouseEvent 100 100 (mkRect 0 0 1000 1000)) live;
              MouseMove (mkMouseEvent 400 100 (mkRect 0 0 1000 1000));
              MouseUp (mkMouseEvent 400 100 (mkRect 0 0 1000 1000));
              SaveEdit] in
  exists c : Coords,
    map (fun i => (id i, elems (liveAnnotations i),
                   elems (designAnnotations i))) (issues s)
    = [("1700000000000"%string, [mkAnnotation arrow c], [])] /\
    coordsEq c (100, 100, 100, 400) /\
    editingIssueId s = None.
Proof.
  eexists. split; [vm_compute; reflexivity | repeat split].
Qed.

(** *** [createIssue] *)


(** When the issue under edit is a new unsaved one with another identifier,
    the cleanup of [cancelEdit] filters the collection of the render, and its
    update comes after the update that prepends the new record: the
    collection that results holds neither. *)
Lemma createIssue_cleanup_overrides (s : State) (now : N) (o : Issue) :
  truthy (editingIssueId s) = true ->
  strictEq (NilZero.string_of_uint (N.to_uint now)) (editingIssueId s) = false ->
  find (fun i => strictEq (id i) (editingIssueId s)) (issues s) = Some o ->
  isNewUnsaved o = true ->
  let s' := step s (CreateIssue now) in
  issues s'
  = filter (fun i => negb (strictEq (id i) (editingIssueId s))) (issues s) /\
  editingIssueId s' = Some (NilZero.string_of_uint (N.to_uint now)).
Proof.
  intros Htruthy Hother Hfind Hnew. unfold_handlers. cbn.
  rewrite Htruthy, Hother. cbn. rewrite Hfind, Hnew. cbn. split; reflexivity.
Qed.

(** C10, the code at the failing input: with a new, untouched issue under
    edit, [createIssue] ends with the edit session on the new identifier while
    the committed collection holds no record with that identifier (here it is
    empty; among other issues it is the other issues alone). *)
Theorem createIssue_while_editing_new_issue :
  issues editingNewIssue = [newIssueAt 1700000000000 0] /\
  editingIssueId editingNewIssue = Some "1700000000000"%string /\
  issues (step editingNewIssue (CreateIssue 1700000000500)) = [] /\
  editingIssueId (step editingNewIssue (CreateIssue 1700000000500))
  = Some "1700000000500"%string /\
  committed "1700000000500"
    (step editingNewIssue (CreateIssue 1700000000500)) = None /\
  issues (step editingNewIssueAmongOthers (CreateIssue 1700000000500))
  = [sampleIssue].
Proof. repeat split. Qed.

(** *** Copy on edit *)

Lemma startEdit_allocates (s : State) (issue : Issue) :
  editForm (step s (StartEdit issue))
  = Partial.set_designAnnotations
      (mkArr (S (nextArr s)) (elems (designAnnotations issue)))
      (Partial.set_liveAnnotations
         (mkArr (nextArr s) (elems (liveAnnotations issue)))
         (spreadIssue issue)) /\
  nextArr (step s (StartEdit issue)) = S (S (nextArr s)).
Proof.
  unfold_handlers. cbn.
  destruct (truthy (editingIssueId s)
            && negb (strictEq (id issue) (editingIssueId s))); cbn.
  - destruct_find Hfind; [destruct (isNewUnsaved _) |]; cbn; split; reflexivity.
  - split; reflexivity.
Qed.








(** *** The allocation invariant holds in every reachable state *)

Lemma arraysBelow_mono (n m : nat) (i : Issue) :
  (n <= m)%nat -> arraysBelow n i -> arraysBelow m i.
Proof. unfold arraysBelow. intros Hle [H1 H2]. split; lia. Qed.

Lemma Forall_arraysBelow_mono (n m : nat) (l : list Issue) :
  (n <= m)%nat -> Forall (arraysBelow n) l -> Forall (arraysBelow m) l.
Proof.
  intros Hle Hall. eapply Forall_impl; [| exact Hall].
  intros i. now apply arraysBelow_mono.
Qed.

Lemma Forall_filter_keep {A : Type} (P : A -> Prop) (f : A -> bool)
    (l : list A) :
  Forall P l -> Forall P (filter f l).
Proof.
  intros Hall. apply Forall_forall. intros x Hx.
  apply filter_In in Hx. rewrite Forall_forall in Hall. now apply Hall.
Qed.

Lemma transformedIssues_allocated (l : list Raw.t) :
  forall fresh : nat,
    (fresh <= snd (transformedIssues fresh l))%nat /\
    Forall (arraysBelow (snd (transformedIssues fresh l)))
           (fst (transformedIssues fresh l)).
Proof.
  induction l as [| raw l IH]; intros fresh; cbn.
  - split; [lia | constructor].
  - destruct (IH (S (S fresh))) as [Hle Hall].
    split; [lia |]. constructor; [| exact Hall].
    split; cbn; lia.
Qed.

(** The state the component mounts on satisfies the invariant. *)
Lemma initialState_allocated
    (fresh fresh' : nat) (rawResult : RawResult) (result : AnalysisResult) :
  transformResult fresh rawResult = inl (result, fresh') ->
  allocated (initialState result fresh').
Proof.
  unfold transformResult.
  destruct (raw_specificIssues rawResult) as [l |]; [| discriminate].
  intros H. injection H as <- <-.
  split; [| split; cbn; discriminate].
  apply transformedIssues_allocated.
Qed.

Lemma allocated_step (s : State) (ev : Event) :
  allocated s -> allocated (step s ev).
Proof.
  unfold allocated, committedAllocated.
  intros (Hc & Hl & Hd).
  assert (Hc1 : Forall (arraysBelow (S (nextArr s))) (issues s))
    by (apply (Forall_arraysBelow_mono (nextArr s)); [lia | exact Hc]).
  assert (Hc2 : Forall (arraysBelow (S (S (nextArr s)))) (issues s))
    by (apply (Forall_arraysBelow_mono (nextArr s)); [lia | exact Hc]).
  assert (Hc4 : Forall (arraysBelow (S (S (S (S (nextArr s)))))) (issues s))
    by (apply (Forall_arraysBelow_mono (nextArr s)); [lia | exact Hc]).
  destruct ev; unfold_handlers; cbn.
  - destruct (truthy (editingIssueId s)); cbn; auto.
  - destruct (dragStart s); cbn; auto.
  - destruct (dragStart s) as [ds |]; [| cbn; auto].
    destruct (currentDrag s) as [cd |]; [| cbn; auto].
    destruct (belowThreshold ds cd); [cbn; auto |].
    cbn. unfold appendAnnotation. destruct (ds_type ds); cbn.
    + split; [exact Hc1 |]. split.
      * intros a Ha. specialize (Hl a Ha). lia.
      * intros a Ha. injection Ha as <-. cbn. lia.
    + split; [exact Hc1 |]. split.
      * intros a Ha. injection Ha as <-. cbn. lia.
      * intros a Ha. specialize (Hd a Ha). lia.
  - destruct (dragStart s); cbn; auto.
  - unfold removeAnnotation. destruct type0; cbn.
    + split; [exact Hc1 |]. split.
      * intros a Ha. specialize (Hl a Ha). lia.
      * intros a Ha. injection Ha as <-. cbn. lia.
    + split; [exact Hc1 |]. split.
      * intros a Ha. injection Ha as <-. cbn. lia.
      * intros a Ha. specialize (Hd a Ha). lia.
  - auto.
  - auto.
  - auto.
  - auto.
  - destruct (truthy (editingIssueId s)
              && negb (strictEq (id issue) (editingIssueId s))); cbn.
    + destruct_find Hfind; [destruct (isNewUnsaved _) |]; cbn;
        (split; [try apply Forall_filter_keep; exact Hc2 |]);
        split; intros a Ha; injection Ha as <-; cbn; lia.
    + split; [exact Hc2 |].
      split; intros a Ha; injection Ha as <-; cbn; lia.
  - assert (Hnew : arraysBelow (S (S (S (S (nextArr s)))))
                     (newIssueAt now (nextArr s)))
      by (split; cbn; lia).
    destruct (truthy (editingIssueId s) && negb _); cbn.
    + destruct_find Hfind; [destruct (isNewUnsaved _) |]; cbn;
        (split; [first [ apply Forall_filter_keep; exact Hc4
                       | constructor; [exact Hnew | exact Hc4] ] |]);
        split; intros a Ha; injection Ha as <-; cbn; lia.
    + split; [constructor; [exact Hnew | exact Hc4] |].
      split; intros a Ha; injection Ha as <-; cbn; lia.
  - destruct confirmed; cbn; [| auto].
    destruct (strictEq target (editingIssueId s)); cbn.
    + destruct_find Hfind; [destruct (isNewUnsaved _) |]; cbn;
        (split; [apply Forall_filter_keep; exact Hc |]);
        split; discriminate.
    + split; [apply Forall_filter_keep; exact Hc |]. auto.
  - destruct (truthy (editingIssueId s)); cbn; [| auto].
    split; [| split; discriminate].
    apply Forall_forall. intros i Hi. apply in_map_iff in Hi.
    destruct Hi as (j & <- & Hj).
    rewrite Forall_forall in Hc. specialize (Hc j Hj).
    destruct (strictEq (id j) (editingIssueId s)); [| exact Hc].
    destruct Hc as [Hjl Hjd]. unfold arraysBelow, mergeIssue. cbn.
    split.
    * destruct (Partial.liveAnnotations (editForm s)) as [a |] eqn:Ha; cbn;
        [now apply Hl | exact Hjl].
    * destruct (Partial.designAnnotations (editForm s)) as [a |] eqn:Ha; cbn;
        [now apply Hd | exact Hjd].
  - destruct_find Hfind; [destruct (isNewUnsaved _) |]; cbn;
      (split; [try apply Forall_filter_keep; exact Hc |]);
      split; discriminate.
  - destruct (truthy (editingIssueId s)); cbn; auto.
Qed.

Lemma allocated_run (evs : list Event) :
  forall s : State, allocated s -> allocated (run s evs).
Proof.
  induction evs as [| ev evs IH]; intros s Hs; [exact Hs |].
  change (run s (ev :: evs)) with (run (step s ev) evs).
  apply IH. now apply allocated_step.
Qed.

(** In a state that satisfies the invariant, the precondition of the
    copy-on-edit theorem holds for every committed issue. *)
Lemma allocated_committed_issue (s : State) (issue : Issue) :
  allocated s -> In issue (issues s) ->
  committedAllocated s /\ arraysBelow (nextArr s) issue.
Proof.
  intros (Hc & _) Hin. split; [exact Hc |].
  unfold committedAllocated in Hc. rewrite Forall_forall in Hc. now apply Hc.
Qed.

(** ** Range of the stored coordinates *)

Lemma toNormalized_range (x d : number) :
  0 < d -> 0 <= x -> x <= d ->
  0 <= toNormalized x d /\ toNormalized x d <= 1000.
Proof.
  intros Hd H0 H1. unfold toNormalized.
  assert (Hlo : 0 <= x / d).
  { apply Qle_shift_div_l; [exact Hd |]. lra. }
  assert (Hhi : x / d <= 1).
  { apply Qle_shift_div_r; [exact Hd |]. lra. }
  generalize dependent (x / d). intros t Hlo Hhi. split; lra.
Qed.

Lemma Qmin_range (a b lo hi : number) :
  lo <= a /\ a <= hi -> lo <= b /\ b <= hi ->
  lo <= Qmin a b /\ Qmin a b <= hi.
Proof.
  intros [Ha1 Ha2] [Hb1 Hb2]. split.
  - now apply Q.min_glb.
  - eapply Qle_trans; [apply Q.le_min_l | exact Ha2].
Qed.

Lemma Qmax_range (a b lo hi : number) :
  lo <= a /\ a <= hi -> lo <= b /\ b <= hi ->
  lo <= Qmax a b /\ Qmax a b <= hi.
Proof.
  intros [Ha1 Ha2] [Hb1 Hb2]. split.
  - eapply Qle_trans; [exact Ha1 | apply Q.le_max_l].
  - now apply Q.max_lub.
Qed.

(** The clamping of [handleMouseMove] puts the point on the surface. *)
Lemma clamped_onSurface (e : MouseEvent) :
  0 < rect_width (currentTargetRect e) ->
  0 < rect_height (currentTargetRect e) ->
  onSurface (currentTargetRect e) (clampedX e) (clampedY e).
Proof.
  intros Hw Hh. unfold onSurface, clampedX, clampedY. cbv zeta.
  repeat split.
  - apply Q.le_max_l.
  - apply Q.max_lub; [lra | apply Q.le_min_r].
  - apply Q.le_max_l.
  - apply Q.max_lub; [lra | apply Q.le_min_r].
Qed.

Lemma newCoords_inRange
    (rect : DOMRect) (ds : DragStart) (cd : Point) (annType : AnnotationType) :
  0 < rect_width rect ->
  0 < rect_height rect ->
  onSurface rect (ds_x ds) (ds_y ds) ->
  onSurface rect (px cd) (py cd) ->
  inRange (newCoords rect ds cd annType).
Proof.
  intros Hw Hh [[Hx1 Hx2] [Hy1 Hy2]] [[Hx3 Hx4] [Hy3 Hy4]].
  pose proof (toNormalized_range _ _ Hw Hx1 Hx2) as Rsx.
  pose proof (toNormalized_range _ _ Hh Hy1 Hy2) as Rsy.
  pose proof (toNormalized_range _ _ Hw Hx3 Hx4) as Rex.
  pose proof (toNormalized_range _ _ Hh Hy3 Hy4) as Rey.
  destruct annType; cbn.
  - pose proof (Qmin_range _ _ 0 1000 Rsy Rey).
    pose proof (Qmin_range _ _ 0 1000 Rsx Rex).
    pose proof (Qmax_range _ _ 0 1000 Rsy Rey).
    pose proof (Qmax_range _ _ 0 1000 Rsx Rex).
    tauto.
  - tauto.
Qed.

Lemma Forall_filterIndex {A : Type} (P : A -> Prop) (keep : nat -> bool)
    (l : list A) :
  forall i : nat, Forall P l -> Forall P (filterIndex keep i l).
Proof.
  induction l as [| x l IH]; intros i Hall; cbn.
  - constructor.
  - inversion Hall as [| ? ? Hx Hl]; subst.
    destruct (keep i); [constructor; [exact Hx |] |]; now apply IH.
Qed.

Lemma annotationsInRange_snoc (l : list Annotation) (a : Annotation) :
  annotationsInRange l -> inRange (coords a) -> annotationsInRange (l ++ [a]).
Proof.
  intros Hl Ha. apply Forall_app. split; [exact Hl |].
  constructor; [exact Ha | constructor].
Qed.

Lemma transformedIssues_inRange (l : list Raw.t) :
  forall fresh : nat,
    rawInRange l ->
    Forall (fun i => annotationsInRange (elems (liveAnnotations i)) /\
                     annotationsInRange (elems (designAnnotations i)))
           (fst (transformedIssues fresh l)).
Proof.
  induction l as [| raw l IH]; intros fresh Hall; cbn.
  - constructor.
  - inversion Hall as [| ? ? Hraw Hrest]; subst.
    constructor; [exact Hraw | now apply IH].
Qed.

Section CoordinateRange.

(** The bounding boxes of the design and of the live surface. *)
Variable surface : Side -> DOMRect.
Hypothesis surface_width : forall type, 0 < rect_width (surface type).
Hypothesis surface_height : forall type, 0 < rect_height (surface type).

Lemma step_in_range (s : State) (ev : Event) :
  storedInRange s -> dragOnSurface surface s ->
  wellFormedEvent surface s ev ->
  storedInRange (step s ev) /\ dragOnSurface surface (step s ev).
Proof.
  unfold storedInRange, dragOnSurface.
  intros (Hc & Hl & Hd) Hdrag Hwf.
  assert (Hnone : forall P : DragStart -> Prop,
            forall ds : DragStart, @None DragStart = Some ds -> P ds)
    by (intros P ds H; discriminate H).
  destruct ev; cbn in Hwf; unfold_handlers; cbn.
  - destruct (truthy (editingIssueId s)); cbn; [| auto].
    split; [auto |]. intros ds Hds. injection Hds as <-. cbn.
    destruct Hwf as [Hrect Hon]. rewrite Hrect.
    split; [exact Hon |]. intros cd Hcd. injection Hcd as <-. exact Hon.
  - destruct (dragStart s) as [ds |] eqn:Hds; cbn; [| rewrite Hds; auto].
    split; [auto |]. rewrite Hds. intros ds' E. injection E as <-.
    split; [apply (Hdrag ds eq_refl) |].
    intros cd Hcd. injection Hcd as <-. cbn.
    rewrite <- (Hwf ds eq_refl).
    apply clamped_onSurface; rewrite (Hwf ds eq_refl); auto.
  - destruct (dragStart s) as [ds |] eqn:Hds; [| cbn; rewrite Hds; auto].
    destruct (currentDrag s) as [cd |] eqn:Hcd;
      [| cbn; rewrite Hds, Hcd; auto].
    destruct (belowThreshold ds cd); cbn.
    + split; [auto |]. apply Hnone.
    + split; [| apply Hnone].
      assert (Hann : inRange (coords
                (newAnnotation (currentTargetRect e) ds cd
                   (orElse (Partial.annotationType (editForm s)) box)))).
      { cbn. rewrite (Hwf ds eq_refl).
        destruct (Hdrag ds eq_refl) as [Hstart Hcur].
        apply newCoords_inRange; auto. }
      unfold appendAnnotation. destruct (ds_type ds); cbn.
      * split; [exact Hc |]. split; [exact Hl |].
        now apply annotationsInRange_snoc.
      * split; [exact Hc |]. split; [| exact Hd].
        now apply annotationsInRange_snoc.
  - destruct (dragStart s) as [ds |] eqn:Hds; cbn.
    + split; [auto |]. apply Hnone.
    + rewrite Hds. auto.
  - unfold removeAnnotation. destruct type0; cbn.
    + split; [| exact Hdrag]. split; [exact Hc |]. split; [exact Hl |].
      now apply Forall_filterIndex.
    + split; [| exact Hdrag]. split; [exact Hc |]. split; [| exact Hd].
      now apply Forall_filterIndex.
  - auto.
  - auto.
  - auto.
  - auto.
  - rewrite Forall_forall in Hc.
    destruct (Hc issue Hwf) as [Hil Hid].
    rewrite <- Forall_forall in Hc.
    destruct (truthy (editingIssueId s)
              && negb (strictEq (id issue) (editingIssueId s))); cbn.
    + destruct_find Hfind; [destruct (isNewUnsaved _) |]; cbn;
        (split; [| exact Hdrag]);
        (split; [try apply Forall_filter_keep; exact Hc |]);
        split; assumption.
    + split; [| exact Hdrag]. split; [exact Hc |]. split; assumption.
  - assert (Hnew : annotationsInRange [] /\ annotationsInRange [])
      by (split; constructor).
    destruct (truthy (editingIssueId s) && negb _); cbn.
    + destruct_find Hfind; [destruct (isNewUnsaved _) |]; cbn;
        (split; [| exact Hdrag]);
        (split; [first [ apply Forall_filter_keep; exact Hc
                       | constructor; [exact Hnew | exact Hc] ] |]);
        split; constructor.
    + split; [| exact Hdrag].
      split; [constructor; [exact Hnew | exact Hc] |]. split; constructor.
  - destruct confirmed; cbn; [| auto].
    destruct (strictEq target (editingIssueId s)); cbn.
    + destruct_find Hfind; [destruct (isNewUnsaved _) |]; cbn;
        (split; [| exact Hdrag]);
        (split; [apply Forall_filter_keep; exact Hc |]);
        split; constructor.
    + split; [| exact Hdrag].
      split; [apply Forall_filter_keep; exact Hc |]. auto.
  - destruct (truthy (editingIssueId s)); cbn; [| auto].
    split; [| exact Hdrag]. split; [| split; constructor].
    apply Forall_forall. intros i Hi. apply in_map_iff in Hi.
    destruct Hi as (j & <- & Hj).
    rewrite Forall_forall in Hc. specialize (Hc j Hj).
    destruct (strictEq (id j) (editingIssueId s)); [| exact Hc].
    destruct Hc as [Hjl Hjd]. unfold mergeIssue. cbn.
    split.
    * destruct (Partial.liveAnnotations (editForm s)); cbn; assumption.
    * destruct (Partial.designAnnotations (editForm s)); cbn; assumption.
  - destruct_find Hfind; [destruct (isNewUnsaved _) |]; cbn;
      (split; [| exact Hdrag]);
      (split; [try apply Forall_filter_keep; exact Hc |]);
      split; constructor.
  - destruct (truthy (editingIssueId s)); cbn; auto.
Qed.

Lemma run_in_range (evs : list Event) :
  forall s : State,
    storedInRange s -> dragOnSurface surface s ->
    wellFormedTrace surface s evs ->
    storedInRange (run s evs) /\ dragOnSurface surface (run s evs).
Proof.
  induction evs as [| ev evs IH]; intros s Hs Hdrag Hwf.
  - split; assumption.
  - destruct Hwf as [Hev Hrest].
    change (run s (ev :: evs)) with (run (step s ev) evs).
    destruct (step_in_range s ev Hs Hdrag Hev) as [Hs' Hdrag'].
    now apply IH.
Qed.

(** C8 (as amended). The adapter copies the four numbers of a collaborator
    box as they are.  When every such box lies in [0, 1000], every
    annotation of the committed collection and of the buffer has its four
    coordinates in [0, 1000] in every state the component reaches by events
    on two surfaces of positive size, where a pointer-down lies on the
    surface and the points of a drag are clamped to it. *)
Theorem stored_coordinates_in_range
    (fresh fresh' : nat) (rawResult : RawResult) (l : list Raw.t)
    (result : AnalysisResult) (evs : list Event) :
  raw_specificIssues rawResult = Some l ->
  rawInRange l ->
  transformResult fresh rawResult = inl (result, fresh') ->
  wellFormedTrace surface (initialState result fresh') evs ->
  map (fun i => elems (liveAnnotations i)) (specificIssues result)
    = map (fun raw => annotationsOfBox (Raw.box_2d raw)) l /\
  map (fun i => elems (designAnnotations i)) (specificIssues result)
    = map (fun raw => annotationsOfBox (Raw.design_box_2d raw)) l /\
  storedInRange (run (initialState result fresh') evs).
Proof.
  intros Hl Hraw Hres Hwf.
  unfold transformResult in Hres. rewrite Hl in Hres.
  injection Hres as <- <-. cbn [specificIssues].
  assert (Hmap : forall (l0 : list Raw.t) (n : nat),
    map (fun i => elems (liveAnnotations i)) (fst (transformedIssues n l0))
      = map (fun raw => annotationsOfBox (Raw.box_2d raw)) l0 /\
    map (fun i => elems (designAnnotations i)) (fst (transformedIssues n l0))
      = map (fun raw => annotationsOfBox (Raw.design_box_2d raw)) l0).
  { induction l0 as [| raw l0 IH]; intros n; cbn.
    - split; reflexivity.
    - destruct (IH (S (S n))) as [E1 E2]. rewrite E1, E2.
      split; reflexivity. }
  split; [apply Hmap |]. split; [apply Hmap |].
  apply run_in_range; [| | exact Hwf].
  - split; [| split; constructor].
    now apply transformedIssues_inRange.
  - intros ds Hds. discriminate Hds.
Qed.

End CoordinateRange.

Lemma sampleTrace_wellFormed :
  wellFormedTrace sampleSurface
    (initialState
       (mkAnalysisResult 90 [] [sampleIssue]) 2) sampleTrace.
Proof.
  unfold sampleTrace. cbn [wellFormedTrace]. split.
  { left. reflexivity. }
  split.
  { split; [reflexivity |]. repeat split; intros H; discriminate H. }
  split.
  { intros ds Hds. injection Hds as <-. reflexivity. }
  split.
  { intros ds Hds. injection Hds as <-. reflexivity. }
  split; exact I.
Defined.

Lemma stored_coordinates_in_range_witness :
  (forall type, 0 < rect_width (sampleSurface type)) /\
  (forall type, 0 < rect_height (sampleSurface type)) /\
  raw_specificIssues sampleRawResult = Some [sampleRawIssue] /\
  rawInRange [sampleRawIssue] /\
  transformResult 0 sampleRawResult
    = inl (mkAnalysisResult 90 [] [sampleIssue], 2%nat) /\
  storedInRange
    (run (initialState (mkAnalysisResult 90 [] [sampleIssue]) 2) sampleTrace).
Proof.
  assert (Hw : forall type, 0 < rect_width (sampleSurface type))
    by (intros []; reflexivity).
  assert (Hh : forall type, 0 < rect_height (sampleSurface type))
    by (intros []; reflexivity).
  assert (Hraw : rawInRange [sampleRawIssue]).
  { constructor; [| constructor].
    split; (constructor; [| constructor]);
      cbn; repeat split; intros H; discriminate H. }
  split; [exact Hw |]. split; [exact Hh |].
  split; [reflexivity |]. split; [exact Hraw |]. split; [reflexivity |].
  apply (stored_coordinates_in_range sampleSurface Hw Hh 0 2 sampleRawResult
           [sampleRawIssue] (mkAnalysisResult 90 [] [sampleIssue]) sampleTrace
           eq_refl Hraw eq_refl sampleTrace_wellFormed).
Defined.

(** The session of [sampleTrace] commits the box drawn from (400, 300) to the
    right edge of the surface. *)
Example sampleTrace_result :
  exists c : Coords,
    map (fun i => elems (liveAnnotations i))
      (issues (run (initialState (mkAnalysisResult 90 [] [sampleIssue]) 2)
                   sampleTrace))
    = [[mkAnnotation box (100, 200, 300, 400); mkAnnotation box c]] /\
    coordsEq c (400 / 3, 500, 500, 1000).
Proof.
  eexists. split; [vm_compute; reflexivity | repeat split].
Qed.

(** C8 as stated does not hold: the adapter stores the box
    [[0, 0, 2000, 5000]] of the collaborator as it is, and the component
    mounts on a collection that holds coordinates above 1000. *)
Lemma adapter_out_of_range_counterexample :
  exists (result : AnalysisResult) (fresh' : nat) (i : Issue)
         (a : Annotation),
    transformResult 0 outOfScaleRawResult = inl (result, fresh') /\
    In i (issues (initialState result fresh')) /\
    In a (elems (liveAnnotations i)) /\
    coords a = (0, 0, 2000, 5000) /\
    ~ inRange (coords a) /\
    ~ storedInRange (initialState result fresh').
Proof.
  do 4 eexists.
  split; [reflexivity |].
  split; [left; reflexivity |].
  split; [left; reflexivity |].
  split; [reflexivity |].
  split.
  - cbn. intros (_ & _ & (_ & H) & _). apply H. reflexivity.
  - intros (Hc & _). inversion Hc as [| ? ? [Hlive _] _]; subst.
    inversion Hlive as [| ? ? Ha _]; subst.
    cbn in Ha. destruct Ha as (_ & _ & (_ & H) & _). apply H. reflexivity.
Qed.

(** The position of a pointer-down is stored as it is: a drag that begins
    twelve pixels to the right of the live surface (on a badge that overflows
    it) stores an abscissa above 1000. *)
Lemma pointer_down_off_surface_stored :
  let s := run sampleEditing
             [MouseDown (mkMouseEvent (830 + 812) 320 (sampleSurface live)) live;
              MouseMove (mkMouseEvent 1000 100 (sampleSurface live));
              MouseUp (mkMouseEvent 1000 100 (sampleSurface live))] in
  exists c0 c1 c2 c3 : number,
    bufferElems live s
    = [mkAnnotation box (100, 200, 300, 400);
       mkAnnotation box (c0, c1, c2, c3)] /\
    c3 == 1015.
Proof.
  do 4 eexists. split; [vm_compute; reflexivity | reflexivity].
Qed.

(** * Further properties of the component *)

(** ** Drawing *)

(** X1. [handleMouseUp] tells a click from a drag by the two points the
    component has stored -- the press point [dragStart] and the point
    [currentDrag] of the last move, which is clamped to the surface -- and
    not by the position of the pointer-up itself.  When the stored points are
    less than five pixels apart on both axes, the pointer-up, wherever it
    happens, closes the drag and changes nothing else: no annotation is
    added to either side of the buffer and the committed collection is as it
    was. *)
Theorem click_is_discarded
    (s : State) (e : MouseEvent) (ds : DragStart) (cd : Point) :
  dragStart s = Some ds ->
  currentDrag s = Some cd ->
  Qabs (ds_x ds - px cd) < 5 ->
  Qabs (ds_y ds - py cd) < 5 ->
  step s (MouseUp e) = setCurrentDrag None (setDragStart None s) /\
  editForm (step s (MouseUp e)) = editForm s /\
  issues (step s (MouseUp e)) = issues s /\
  (forall e' : MouseEvent, step s (MouseUp e') = step s (MouseUp e)).
Proof.
  intros Hds Hcd Hx Hy.
  assert (Hth : belowThreshold ds cd = true).
  { unfold belowThreshold, Qltb. apply andb_true_iff.
    split; apply negb_true_iff, not_true_iff_false;
      intros Hle; apply Qle_bool_iff in Hle; lra. }
  rewrite (handleMouseUp_discarded s e ds cd Hds Hcd Hth).
  repeat split.
  intros e'. apply (handleMouseUp_discarded s e' ds cd Hds Hcd Hth).
Qed.

Lemma click_is_discarded_witness :
  dragStart (setCurrentDrag (Some (mkPoint 403 298))
               (setDragStart (Some sampleStart) sampleEditing))
    = Some sampleStart /\
  currentDrag (setCurrentDrag (Some (mkPoint 403 298))
                 (setDragStart (Some sampleStart) sampleEditing))
    = Some (mkPoint 403 298) /\
  Qabs (ds_x sampleStart - 403) < 5 /\
  Qabs (ds_y sampleStart - 298) < 5 /\
  editForm (step (setCurrentDrag (Some (mkPoint 403 298))
                    (setDragStart (Some sampleStart) sampleEditing))
                 (MouseUp sampleUp))
  = editForm sampleEditing.
Proof.
  repeat (split; [reflexivity |]).
  apply (click_is_discarded
           (setCurrentDrag (Some (mkPoint 403 298))
              (setDragStart (Some sampleStart) sampleEditing))
           sampleUp sampleStart (mkPoint 403 298));
    reflexivity.
Defined.

(** The stored points are not the pointer's: a press eight pixels to the
    right of the surface (on a badge that overflows it) is stored as it is,
    the move that follows is stored clamped to the right edge, and a release
    one pixel from the press draws a box. *)
Example release_near_press_can_draw :
  bufferElems live
    (run sampleEditing
       [MouseDown (mkMouseEvent 1638 120 (sampleSurface live)) live;
        MouseMove (mkMouseEvent 1639 120 (sampleSurface live));
        MouseUp (mkMouseEvent 1639 120 (sampleSurface live))])
  = bufferElems live sampleEditing
    ++ [newAnnotation (sampleSurface live) (mkDragStart 808 100 live)
          (mkPoint 800 100) box].
Proof. reflexivity. Qed.

Lemma pointer_event_not_editing (s : State) (ev : Event) :
  truthy (editingIssueId s) = false ->
  dragStart s = None ->
  isPointerEvent ev = true ->
  step s ev = s.
Proof.
  intros Hno Hds Hev.
  destruct ev; try discriminate; unfold_handlers; cbn.
  - rewrite Hno. reflexivity.
  - rewrite Hds. reflexivity.
  - rewrite Hds. reflexivity.
  - rewrite Hds. reflexivity.
Qed.

(** X2. Without an edit session ([editingIssueId] falsy) and with no drag
    open, no sequence of pointer events on the surfaces changes anything:
    drawing is disabled. *)
Theorem drawing_disabled_without_edit (evs : list Event) :
  forall s : State,
    truthy (editingIssueId s) = false ->
    dragStart s = None ->
    forallb isPointerEvent evs = true ->
    run s evs = s.
Proof.
  induction evs as [| ev evs IH]; intros s Hno Hds Hall.
  - reflexivity.
  - cbn in Hall. apply andb_true_iff in Hall. destruct Hall as [Hev Hall].
    change (run s (ev :: evs)) with (run (step s ev) evs).
    rewrite (pointer_event_not_editing s ev Hno Hds Hev).
    now apply IH.
Qed.

Lemma drawing_disabled_without_edit_witness :
  truthy (editingIssueId
            (initialState (mkAnalysisResult 90 [] [sampleIssue]) 2)) = false /\
  dragStart (initialState (mkAnalysisResult 90 [] [sampleIssue]) 2) = None /\
  forallb isPointerEvent
    [MouseDown (mkMouseEvent 1230 320 (sampleSurface live)) live;
     MouseMove (mkMouseEvent 1900 100 (sampleSurface live));
     MouseUp (mkMouseEvent 1900 100 (sampleSurface live))] = true /\
  run (initialState (mkAnalysisResult 90 [] [sampleIssue]) 2)
    [MouseDown (mkMouseEvent 1230 320 (sampleSurface live)) live;
     MouseMove (mkMouseEvent 1900 100 (sampleSurface live));
     MouseUp (mkMouseEvent 1900 100 (sampleSurface live))]
  = initialState (mkAnalysisResult 90 [] [sampleIssue]) 2.
Proof.
  repeat (split; [reflexivity |]).
  apply drawing_disabled_without_edit; reflexivity.
Defined.

(** X3. While a drag is open, a pointer move stores a point of the surface:
    the pointer position relative to the surface, clamped to
    [0, width] x [0, height].  A pointer that is on the surface is stored as it
    is.  The move changes nothing but the current point. *)
Theorem move_clamps_to_surface
    (s : State) (e : MouseEvent) (ds : DragStart) :
  dragStart s = Some ds ->
  0 <= rect_width (currentTargetRect e) ->
  0 <= rect_height (currentTargetRect e) ->
  let rect := currentTargetRect e in
  let x := clientX e - rect_left rect in
  let y := clientY e - rect_top rect in
  exists cd : Point,
    step s (MouseMove e) = setCurrentDrag (Some cd) s /\
    onSurface rect (px cd) (py cd) /\
    (0 <= x /\ x <= rect_width rect -> px cd == x) /\
    (0 <= y /\ y <= rect_height rect -> py cd == y) /\
    (x <= 0 -> px cd == 0) /\
    (rect_width rect <= x -> px cd == rect_width rect) /\
    (y <= 0 -> py cd == 0) /\
    (rect_height rect <= y -> py cd == rect_height rect).
Proof.
  intros Hds Hw Hh rect x y.
  exists (mkPoint (clampedX e) (clampedY e)).
  split.
  { unfold_handlers. cbn. rewrite Hds. reflexivity. }
  unfold onSurface, clampedX, clampedY. cbn. fold rect. fold x. fold y.
  assert (Hminx : Qmin x (rect_width rect) <= rect_width rect)
    by apply Q.le_min_r.
  assert (Hminy : Qmin y (rect_height rect) <= rect_height rect)
    by apply Q.le_min_r.
  split.
  { repeat split.
    - apply Q.le_max_l.
    - apply Q.max_lub; assumption.
    - apply Q.le_max_l.
    - apply Q.max_lub; assumption. }
  split.
  { intros [H0 H1]. rewrite (Q.min_l x _ H1). now apply Q.max_r. }
  split.
  { intros [H0 H1]. rewrite (Q.min_l y _ H1). now apply Q.max_r. }
  split.
  { intros H0. apply Q.max_l.
    eapply Qle_trans; [apply Q.le_min_l | exact H0]. }
  split.
  { intros H1. rewrite (Q.min_r x _ H1). now apply Q.max_r. }
  split.
  { intros H0. apply Q.max_l.
    eapply Qle_trans; [apply Q.le_min_l | exact H0]. }
  intros H1. rewrite (Q.min_r y _ H1). now apply Q.max_r.
Qed.

Lemma move_clamps_to_surface_witness :
  dragStart sampleBoxDrag = Some sampleStart /\
  0 <= rect_width (sampleSurface live) /\
  0 <= rect_height (sampleSurface live) /\
  exists cd : Point,
    step sampleBoxDrag (MouseMove (mkMouseEvent 1900 100 (sampleSurface live)))
    = setCurrentDrag (Some cd) sampleBoxDrag /\
    px cd == 800 /\ py cd == 80.
Proof.
  split; [reflexivity |]. split; [discriminate |]. split; [discriminate |].
  destruct (move_clamps_to_surface sampleBoxDrag
              (mkMouseEvent 1900 100 (sampleSurface live)) sampleStart
              eq_refl) as (cd & Hstep & _ & _ & Hy & _ & Hx & _).
  - discriminate.
  - discriminate.
  - exists cd. split; [exact Hstep |]. split.
    + apply Hx. discriminate.
    + rewrite Hy; [reflexivity |]. split; discriminate.
Defined.

(** X4. When the pointer leaves the surface the drag is abandoned: the drag
    is closed, the buffer and the committed collection are as they were, and
    a pointer-up that follows does nothing. *)
Theorem leave_abandons_drag (s : State) (e : MouseEvent) :
  dragStart (step s MouseLeave) = None /\
  editForm (step s MouseLeave) = editForm s /\
  issues (step s MouseLeave) = issues s /\
  editingIssueId (step s MouseLeave) = editingIssueId s /\
  step (step s MouseLeave) (MouseUp e) = step s MouseLeave.
Proof.
  unfold_handlers. cbn.
  destruct (dragStart s) as [ds |] eqn:Hds; cbn.
  - repeat split.
  - rewrite Hds. repeat split.
Qed.

Lemma firstn_skipn_succ_all {A : Type} (l : list A) (index : nat) :
  (List.length l <= index)%nat -> firstn index l ++ skipn (S index) l = l.
Proof.
  intros Hle. rewrite firstn_all2 by exact Hle.
  rewrite skipn_all2 by lia. apply app_nil_r.
Qed.

Lemma firstn_skipn_succ_length {A : Type} (l : list A) (index : nat) :
  (index < List.length l)%nat ->
  S (List.length (firstn index l ++ skipn (S index) l)) = List.length l.
Proof.
  intros Hlt. rewrite length_app, length_firstn, length_skipn. lia.
Qed.

(** X5. [deleteAnnotation] removes from the buffer the annotation at the given
    index of the given side and nothing else: the annotations before it stay
    at their index, the ones after it move down by one, the other side is
    untouched and the hover state is cleared.  An index past the end removes
    nothing. *)
Theorem deleteAnnotation_at_index (s : State) (type : Side) (index : nat) :
  let s' := step s (DeleteAnnotation type index) in
  let l := bufferElems type s in
  bufferElems type s' = firstn index l ++ skipn (S index) l /\
  (forall k, (k < index)%nat -> nth_error (bufferElems type s') k = nth_error l k) /\
  (forall k, (index <= k)%nat ->
             nth_error (bufferElems type s') k = nth_error l (S k)) /\
  ((index < List.length l)%nat ->
   S (List.length (bufferElems type s')) = List.length l) /\
  ((List.length l <= index)%nat -> bufferElems type s' = l) /\
  bufferElems (otherSide type) s' = bufferElems (otherSide type) s /\
  hoveredAnnotation s' = None /\
  issues s' = issues s.
Proof.
  intros s' l.
  assert (E : bufferElems type s' = firstn index l ++ skipn (S index) l).
  { unfold s', l, step, dispatch, handler, deleteAnnotation, bind, enqueue,
      removeAnnotation.
    destruct type; cbn; apply (filterIndex_removes _ 0%nat index). }
  split; [exact E |]. rewrite E.
  split.
  { intros k Hk.
    destruct (Nat.le_gt_cases (List.length l) index) as [Hlen | Hlen].
    - now rewrite firstn_skipn_succ_all.
    - rewrite nth_error_app1 by (rewrite length_firstn; lia).
      rewrite nth_error_firstn.
      now rewrite (proj2 (Nat.ltb_lt k index) Hk). }
  split.
  { intros k Hk.
    destruct (Nat.le_gt_cases (List.length l) index) as [Hlen | Hlen].
    - rewrite firstn_skipn_succ_all by exact Hlen.
      rewrite (proj2 (nth_error_None l k)) by lia.
      symmetry. apply nth_error_None. lia.
    - rewrite nth_error_app2 by (rewrite length_firstn; lia).
      rewrite length_firstn, nth_error_skipn.
      f_equal. lia. }
  split; [apply firstn_skipn_succ_length |].
  split; [apply firstn_skipn_succ_all |].
  unfold s'. destruct type; repeat split.
Qed.

Lemma deleteAnnotation_at_index_witness :
  (1 < List.length
         (bufferElems live (step sampleBoxDrag (MouseUp sampleUp))))%nat /\
  bufferElems live
    (step (step sampleBoxDrag (MouseUp sampleUp)) (DeleteAnnotation live 0))
  = [newAnnotation sampleRect sampleStart sampleEnd box].
Proof.
  split; [cbn; lia |].
  apply (deleteAnnotation_at_index (step sampleBoxDrag (MouseUp sampleUp))
           live 0).
Defined.

(** X6. A completed drag changes, of the buffer, only the sequence of the side
    it began on: the other side and the fields of the form stay as they were;
    the kind of the new annotation is the annotation type of the buffer, or
    [box] when the buffer has none. *)
Theorem draw_touches_one_side
    (s : State) (e : MouseEvent) (ds : DragStart) (cd : Point) :
  dragStart s = Some ds ->
  currentDrag s = Some cd ->
  belowThreshold ds cd = false ->
  let s' := step s (MouseUp e) in
  let f := editForm s in
  let f' := editForm s' in
  (exists ann : Annotation,
     bufferElems (ds_type ds) s' = bufferElems (ds_type ds) s ++ [ann] /\
     type ann = orElse (Partial.annotationType f) box) /\
  bufferElems (otherSide (ds_type ds)) s'
    = bufferElems (otherSide (ds_type ds)) s /\
  Partial.id f' = Partial.id f /\
  Partial.title f' = Partial.title f /\
  Partial.description f' = Partial.description f /\
  Partial.severity f' = Partial.severity f /\
  Partial.annotationType f' = Partial.annotationType f /\
  Partial.designReference f' = Partial.designReference f /\
  Partial.liveObservation f' = Partial.liveObservation f /\
  Partial.suggestion f' = Partial.suggestion f /\
  dragStart s' = None /\
  currentDrag s' = None.
Proof.
  intros Hds Hcd Hth s' f f'. subst f f' s'.
  rewrite (handleMouseUp_completed s e ds cd Hds Hcd Hth).
  split.
  { eexists. split; [apply bufferElems_appendAnnotation | reflexivity]. }
  destruct (ds_type ds); cbn; repeat split; reflexivity.
Qed.

Lemma draw_touches_one_side_witness :
  dragStart sampleArrowDrag = Some sampleStart /\
  currentDrag sampleArrowDrag = Some sampleEnd /\
  belowThreshold sampleStart sampleEnd = false /\
  bufferElems design (step sampleArrowDrag (MouseUp sampleUp))
  = bufferElems design sampleArrowDrag.
Proof.
  repeat (split; [reflexivity |]).
  apply (draw_touches_one_side sampleArrowDrag sampleUp sampleStart sampleEnd);
    reflexivity.
Defined.

(** ** Editing *)

(** X7. [deleteIssue] does nothing when the confirmation is declined.  When it
    is confirmed, the collection loses every record with the identifier and
    keeps the others in their order; if the identifier was the one under edit
    the machine goes to [NoEdit] with an empty buffer, otherwise the edit
    session is as it was. *)
Theorem deleteIssue_outcome (s : State) (target : string) :
  step s (DeleteIssue target false) = s /\
  let s' := step s (DeleteIssue target true) in
  issues s' = filter (fun i => negb (String.eqb (id i) target)) (issues s) /\
  (forall i, In i (issues s') -> id i <> target) /\
  (forall i, In i (issues s) -> id i <> target -> In i (issues s')) /\
  (editingIssueId s = Some target ->
   editingIssueId s' = None /\ editForm s' = Partial.empty) /\
  (editingIssueId s <> Some target ->
   editingIssueId s' = editingIssueId s /\ editForm s' = editForm s).
Proof.
  split; [reflexivity |]. cbv zeta.
  assert (E : issues (step s (DeleteIssue target true))
              = filter (fun i => negb (String.eqb (id i) target)) (issues s)).
  { unfold_handlers. cbn.
    destruct (editingIssueId s) as [e |] eqn:He; cbn; [| reflexivity].
    destruct (String.eqb target e) eqn:Heq; cbn; [| reflexivity].
    apply String.eqb_eq in Heq. subst e.
    destruct_find Hfind; [destruct (isNewUnsaved _) |]; cbn;
      rewrite ?He; reflexivity. }
  split; [exact E |]. rewrite E.
  split; [intros i; apply filter_removes_id |].
  split; [intros i; apply filter_keeps_others |].
  split.
  - intros He. unfold_handlers. cbn. rewrite He. cbn.
    rewrite String.eqb_refl. cbn. split; reflexivity.
  - intros Hne. unfold_handlers. cbn.
    destruct (editingIssueId s) as [e |] eqn:He; cbn;
      [| rewrite He; split; reflexivity].
    destruct (String.eqb target e) eqn:Heq; cbn;
      [| rewrite He; split; reflexivity].
    apply String.eqb_eq in Heq. subst e. contradiction.
Qed.

Lemma deleteIssue_outcome_witness :
  editingIssueId sampleEditing = Some "1"%string /\
  issues (step sampleEditing (DeleteIssue "1" true)) = [] /\
  editingIssueId (step sampleEditing (DeleteIssue "1" true)) = None.
Proof.
  split; [reflexivity |].
  destruct (deleteIssue_outcome sampleEditing "1") as (_ & E & _ & _ & H & _).
  split; [exact E | apply H; reflexivity].
Defined.

Lemma exclusive_step (s : State) (ev : Event) :
  exclusive s -> exclusive (step s ev).
Proof.
  unfold exclusive. intros Hex.
  assert (Hsel : truthy (editingIssueId s) = true -> selectedIssueId s = None)
    by exact Hex.
  destruct (truthy (editingIssueId s)) eqn:Ht;
    [specialize (Hsel eq_refl) | clear Hsel];
    destruct ev; unfold_handlers; cbn; rewrite ?Ht; cbn;
    try (intros _; assumption); try reflexivity; try discriminate;
    try (rewrite Ht; discriminate).
  - destruct (dragStart s); cbn; intros _; assumption.
  - destruct (dragStart s) as [ds |]; [| cbn; intros _; assumption].
    destruct (currentDrag s) as [cd |]; [| cbn; intros _; assumption].
    destruct (belowThreshold ds cd); cbn; intros _; assumption.
  - destruct (dragStart s); cbn; intros _; assumption.
  - destruct confirmed; cbn; [| intros _; assumption].
    destruct (strictEq target (editingIssueId s)); cbn;
      [discriminate | intros _; assumption].
  - destruct (dragStart s); cbn; rewrite Ht; discriminate.
  - destruct (dragStart s) as [ds |]; [| cbn; rewrite Ht; discriminate].
    destruct (currentDrag s) as [cd |]; [| cbn; rewrite Ht; discriminate].
    destruct (belowThreshold ds cd); cbn; rewrite Ht; discriminate.
  - destruct (dragStart s); cbn; rewrite Ht; discriminate.
  - destruct confirmed; cbn; [| rewrite Ht; discriminate].
    destruct (strictEq target (editingIssueId s)); cbn;
      [discriminate | rewrite Ht; discriminate].
Qed.

(** X8. The detail view and the edit session exclude each other in every
    state the component reaches: from a state in which no issue is both
    selected and under edit, no sequence of events leads to a state with an
    issue selected while the component is editing. *)
Theorem detail_view_excludes_edit (evs : list Event) :
  forall s : State, exclusive s -> exclusive (run s evs).
Proof.
  induction evs as [| ev evs IH]; intros s Hs; [exact Hs |].
  change (run s (ev :: evs)) with (run (step s ev) evs).
  apply IH. now apply exclusive_step.
Qed.

Lemma detail_view_excludes_edit_witness :
  exclusive (initialState (mkAnalysisResult 90 [] [sampleIssue]) 2) /\
  exclusive (run (initialState (mkAnalysisResult 90 [] [sampleIssue]) 2)
               [SelectIssue "1"; StartEdit sampleIssue; SelectIssue "1"]).
Proof.
  assert (H : exclusive (initialState (mkAnalysisResult 90 [] [sampleIssue]) 2))
    by (intros H; discriminate H).
  split; [exact H |].
  apply (detail_view_excludes_edit
           [SelectIssue "1"; StartEdit sampleIssue; SelectIssue "1"] _ H).
Defined.


Lemma createIssue_NoEdit (s : State) (now : N) :
  truthy (editingIssueId s) = false ->
  issues (step s (CreateIssue now)) = newIssueAt now (nextArr s) :: issues s /\
  editingIssueId (step s (CreateIssue now)) = Some (id (newIssueAt now (nextArr s))).
Proof.
  intros Hno. unfold_handlers. cbn. rewrite Hno. cbn. split; reflexivity.
Qed.

Lemma filter_other_ids (target : string) (l : list Issue) :
  (forall i, In i l -> id i <> target) ->
  filter (fun i => negb (String.eqb (id i) target)) l = l.
Proof.
  induction l as [| x l IH]; intros Hall; cbn; [reflexivity |].
  assert (Hx : String.eqb (id x) target = false).
  { apply String.eqb_neq. apply Hall. left. reflexivity. }
  rewrite Hx. cbn. f_equal. apply IH. intros i Hi. apply Hall. now right.
Qed.

(** X10. Creating an issue from [NoEdit], drawing on it or typing in its form,
    and cancelling without saving gives back the committed collection of
    before the creation, provided no committed record already has the
    identifier the new issue got from the clock. *)
Theorem create_then_cancel_restores
    (s : State) (now : N) (evs : list Event) :
  truthy (editingIssueId s) = false ->
  (forall i, In i (issues s) ->
             id i <> NilZero.string_of_uint (N.to_uint now)) ->
  forallb isBufferEvent evs = true ->
  let s' := step (run (step s (CreateIssue now)) evs) CancelEdit in
  issues s' = issues s /\
  editingIssueId s' = None /\
  editForm s' = Partial.empty.
Proof.
  intros Hno Hfresh Hevs. cbv zeta.
  destruct (createIssue_NoEdit s now Hno) as [Hissues Hediting].
  destruct (buffer_events_frame evs (step s (CreateIssue now)) Hevs)
    as [Hi He].
  rewrite Hissues in Hi. rewrite Hediting in He.
  split; [| apply cancelEdit_resets].
  generalize dependent (run (step s (CreateIssue now)) evs).
  intros s1 Hi He.
  rewrite (cancelEdit_removes s1 (newIssueAt now (nextArr s))).
  - cbn [issues setEditForm setEditingIssueId setIssues].
    rewrite Hi, He. cbn. rewrite String.eqb_refl. cbn.
    now apply filter_other_ids.
  - rewrite Hi, He. cbn. rewrite String.eqb_refl. reflexivity.
  - reflexivity.
Qed.

Lemma create_then_cancel_restores_witness :
  truthy (editingIssueId
            (initialState (mkAnalysisResult 90 [] [sampleIssue]) 2)) = false /\
  (forall i,
     In i (issues (initialState (mkAnalysisResult 90 [] [sampleIssue]) 2)) ->
     id i <> NilZero.string_of_uint (N.to_uint 1700000000000)) /\
  forallb isBufferEvent
    [SetDescription "The footer is cut."; SetSeverity High] = true /\
  issues (step (run (step (initialState
                             (mkAnalysisResult 90 [] [sampleIssue]) 2)
                          (CreateIssue 1700000000000))
                    [SetDescription "The footer is cut."; SetSeverity High])
               CancelEdit)
  = [sampleIssue].
Proof.
  assert (Hfresh : forall i,
     In i (issues (initialState (mkAnalysisResult 90 [] [sampleIssue]) 2)) ->
     id i <> NilZero.string_of_uint (N.to_uint 1700000000000)).
  { intros i [<- | []]. discriminate. }
  split; [reflexivity |]. split; [exact Hfresh |]. split; [reflexivity |].
  apply (create_then_cancel_restores
           (initialState (mkAnalysisResult 90 [] [sampleIssue]) 2)
           1700000000000
           [SetDescription "The footer is cut."; SetSeverity High]
           eq_refl Hfresh eq_refl).
Defined.

(** X11. Opening the edit of a committed record and saving at once changes
    nothing that can be seen: the collection keeps its length, the record is
    at its position with the same fields and the same annotations (in newly
    allocated arrays), and the machine is back in [NoEdit]. *)
Theorem edit_then_save_unchanged (s : State) (issue : Issue) :
  truthy (editingIssueId (step s (StartEdit issue))) = true ->
  let s1 := step s (StartEdit issue) in
  let s' := step s1 SaveEdit in
  editingIssueId s' = None /\
  editForm s' = Partial.empty /\
  List.length (issues s') = List.length (issues s1) /\
  forall k : nat,
    nth_error (issues s1) k = Some issue ->
    exists i' : Issue,
      nth_error (issues s') k = Some i' /\ sameContents i' issue.
Proof.
  intros Hed s1 s'. subst s' s1.
  rewrite (saveEdit_editing _ Hed).
  cbn [issues editingIssueId editForm setEditForm setEditingIssueId setIssues].
  split; [reflexivity |]. split; [reflexivity |].
  split; [apply length_map |].
  intros k Hk. rewrite nth_error_map, Hk. cbn [option_map].
  change (editingIssueId (step s (StartEdit issue))) with (Some (id issue)).
  cbn [strictEq]. rewrite String.eqb_refl.
  eexists. split; [reflexivity |].
  destruct (startEdit_allocates s issue) as [Hform _]. rewrite Hform.
  destruct issue as [iid it idesc ib idb il ide idr ilo isg isev iat].
  unfold sameContents. cbn.
  destruct ib, idb, iat; repeat split.
Qed.

Lemma edit_then_save_unchanged_witness :
  truthy (editingIssueId sampleEditing) = true /\
  exists i' : Issue,
    nth_error (issues (step sampleEditing SaveEdit)) 0 = Some i' /\
    sameContents i' sampleIssue.
Proof.
  split; [reflexivity |].
  destruct (edit_then_save_unchanged
              (mkState [sampleIssue] None None None None Partial.empty
                 None None 2) sampleIssue eq_refl) as (_ & _ & _ & H).
  apply (H 0%nat). reflexivity.
Defined.

(** ** Renderers *)

(** X12. For an annotation that is not the degenerate sentinel the interactive
    renderer and the export lay out the same geometry (the same line in the
    1000 by 1000 view box for an arrow, the same percentage box for a
    rectangle) and the export element is shown.  The export badge is the
    position of the issue plus one; the interactive badge is the same number,
    or the delete mark while the annotation is hovered in its edit session,
    and always the number when no edit session is open. *)
Theorem renderers_agree
    (s : State) (issueId : option string) (isDesign : bool)
    (annotation : Annotation) (idx annIndex : nat) :
  isDegenerate (coords annotation) = false ->
  exists o : Overlay,
    renderAnnotation s issueId isDesign annotation idx annIndex = Some o /\
    overlayGeometry o = exportGeometry (exportAnnotation idx annotation) /\
    exportVisible (exportAnnotation idx annotation) = true /\
    exportBadge (exportAnnotation idx annotation) = (idx + 1)%nat /\
    (overlayBadge o = Some (idx + 1)%nat \/
     overlayBadge o = None /\ optStrictEq (editingIssueId s) issueId = true) /\
    (editingIssueId s = None -> overlayBadge o = Some (idx + 1)%nat).
Proof.
  intros Hnd.
  destruct annotation as [kind [[[c1 c2] c3] c4]].
  unfold renderAnnotation, exportAnnotation, createArrow, createBox.
  cbn [coords type]. unfold isDegenerate in Hnd. cbn [coords] in Hnd.
  rewrite Hnd.
  destruct kind; eexists; (split; [reflexivity |]); cbn.
  - rewrite Hnd.
    split; [reflexivity |]. split; [reflexivity |]. split; [reflexivity |].
    split.
    + destruct (optStrictEq (editingIssueId s) issueId); cbn; [| now left].
      match goal with
      | |- context [if ?b then None else _] =>
          destruct b; [right; split; reflexivity | left; reflexivity]
      end.
    + intros ->. reflexivity.
  - split; [reflexivity |]. split; [reflexivity |]. split; [reflexivity |].
    split.
    + destruct (optStrictEq (editingIssueId s) issueId); cbn; [| now left].
      match goal with
      | |- context [if ?b then None else _] =>
          destruct b; [right; split; reflexivity | left; reflexivity]
      end.
    + intros ->. reflexivity.
Qed.

Lemma renderers_agree_witness :
  isDegenerate (coords (mkAnnotation arrow (500, 500, 250, 250))) = false /\
  exists o : Overlay,
    renderAnnotation sampleEditing (Some "1"%string) false
      (mkAnnotation arrow (500, 500, 250, 250)) 0 1 = Some o /\
    overlayGeometry o = LineGeometry 500 500 250 250.
Proof.
  split; [reflexivity |].
  destruct (renderers_agree sampleEditing (Some "1"%string) false
              (mkAnnotation arrow (500, 500, 250, 250)) 0 1 eq_refl)
    as (o & Ho & Hg & _).
  exists o. split; [exact Ho | exact Hg].
Defined.

Lemma Qmin_plus_Qmax (a b : number) : Qmin a b + Qmax a b == a + b.
Proof.
  destruct (Q.min_spec a b) as [[Hlt Hmin] | [Hle Hmin]];
    destruct (Q.max_spec a b) as [[Hlt' Hmax] | [Hle' Hmax]];
    rewrite Hmin, Hmax; lra.
Qed.

(** X13. The detail view centres its crop on the middle of the first
    annotation of the side: the background position is ((x1 + x2) / 2) / 10
    percent by ((y1 + y2) / 2) / 10 percent, whichever corner or end point
    comes first, so an arrow and its reverse give the same crop; for
    coordinates in [0, 1000] the position is between 0 and 100 percent.
    Without an image source the style is empty. *)
Theorem crop_centre
    (issue : Issue) (side : Side) (a : Annotation) (rest : list Annotation)
    (y1 x1 y2 x2 : number) (src : string) (zoomLevel : number) :
  annotationsOf issue side = a :: rest ->
  coords a = (y1, x1, y2, x2) ->
  src <> EmptyString ->
  getCropStyle issue None side zoomLevel = None /\
  getCropStyle issue (Some EmptyString) side zoomLevel = None /\
  exists style : CropStyle,
    getCropStyle issue (Some src) side zoomLevel = Some style /\
    backgroundImage style = src /\
    backgroundSize style = zoomLevel /\
    backgroundPositionX style == (x1 + x2) / 2 / 10 /\
    backgroundPositionY style == (y1 + y2) / 2 / 10 /\
    (inRange (coords a) ->
     (0 <= backgroundPositionX style /\ backgroundPositionX style <= 100) /\
     (0 <= backgroundPositionY style /\ backgroundPositionY style <= 100)).
Proof.
  intros Hfirst Hc Hsrc.
  split; [reflexivity |]. split; [reflexivity |].
  assert (Hbox : cropBox issue side = (y1, x1, y2, x2)).
  { unfold cropBox. unfold annotationsOf in Hfirst.
    destruct side; rewrite Hfirst; exact Hc. }
  assert (Ht : truthy (Some src) = true).
  { cbn. apply negb_true_iff. now apply String.eqb_neq. }
  unfold getCropStyle. rewrite Ht, Hbox.
  eexists. split; [reflexivity |]. cbn.
  split; [reflexivity |]. split; [reflexivity |].
  assert (Ex : (Qmin x1 x2 + Qmax x1 x2) / 2 / 10 == (x1 + x2) / 2 / 10)
    by (rewrite Qmin_plus_Qmax; reflexivity).
  assert (Ey : (Qmin y1 y2 + Qmax y1 y2) / 2 / 10 == (y1 + y2) / 2 / 10)
    by (rewrite Qmin_plus_Qmax; reflexivity).
  split; [exact Ex |]. split; [exact Ey |].
  rewrite Hc. cbn. intros ((Hy1a & Hy1b) & (Hx1a & Hx1b) & (Hy2a & Hy2b) & (Hx2a & Hx2b)).
  rewrite Ex, Ey.
  assert (Hx : (x1 + x2) / 2 / 10 == (x1 + x2) * (1 # 20)) by field.
  assert (Hy : (y1 + y2) / 2 / 10 == (y1 + y2) * (1 # 20)) by field.
  rewrite Hx, Hy. repeat split; lra.
Qed.

Lemma crop_centre_witness :
  annotationsOf sampleIssue live = mkAnnotation box (100, 200, 300, 400) :: [] /\
  coords (mkAnnotation box (100, 200, 300, 400)) = (100, 200, 300, 400) /\
  "live.png"%string <> EmptyString /\
  exists style : CropStyle,
    getCropStyle sampleIssue (Some "live.png"%string) live 300 = Some style /\
    backgroundPositionX style == 30 /\
    backgroundPositionY style == 20.
Proof.
  split; [reflexivity |]. split; [reflexivity |]. split; [discriminate |].
  destruct (crop_centre sampleIssue live (mkAnnotation box (100, 200, 300, 400))
              [] 100 200 300 400 "live.png" 300 eq_refl eq_refl)
    as (_ & _ & style & Hs & _ & _ & Hx & Hy & _).
  - discriminate.
  - exists style. split; [exact Hs |].
    split; [rewrite Hx | rewrite Hy]; reflexivity.
Defined.

(** ** The hover script of the export *)



Lemma string_app_inv_head (a b c : string) :
  (a ++ b)%string = (a ++ c)%string -> b = c.
Proof.
  induction a as [| x a IH]; cbn; intros H; [exact H |].
  injection H as H. now apply IH.
Qed.




































(** An identifier that holds a space is split by the class attribute: the
    overlay built for ["a issue-annotation-7"] carries the class token of
    issue ["7"], and [highlight("7")] restyles it. *)
Example unsafe_identifier_is_selected :
  let n := overlayNode "a issue-annotation-7" "#ef4444" 0
             (mkAnnotation box (100, 200, 300, 400)) in
  contains (classes n) "issue-annotation-7" = true /\
  forSelected highlightNode "7" [n] = [highlightNode n] /\
  highlightNode n <> n.
Proof.
  cbv zeta. split; [vm_compute; reflexivity |].
  split; [vm_compute; reflexivity |].
  intros H. apply (f_equal classes) in H. vm_compute in H. discriminate H.
Qed.

(** The green box built for the identifier ["x border-red-500/0"] carries
    the class token of issue ["x"] and the token [border-red-500/0]: the
    first [highlight("x")] turns it green, the second one turns it red as
    well. *)
Example unsafe_identifier_highlight_twice :
  let n := overlayNode "x border-red-500/0" "#22c55e" 0
             (mkAnnotation box (100, 200, 300, 400)) in
  contains (classes n) "issue-annotation-x" = true /\
  contains (classes (highlightNode n)) "border-red-500" = false /\
  contains (classes (highlightNode (highlightNode n))) "border-red-500" = true.
Proof. cbv zeta. repeat split; vm_compute; reflexivity. Qed.

(** On the sample page, hovering issue "1" restyles its two boxes and its
    list entry and leaves the arrow of issue "10" with its stroke width. *)
Example hover_sample :
  map strokeWidth (liveOverlays (highlight "1" (renderPage samplePageData)))
    = [None; Some "3"%string] /\
  map strokeWidth (liveOverlays (highlight "10" (renderPage samplePageData)))
    = [None; Some "5"%string] /\
  map (fun n => contains (classes n) "border-red-500")
      (liveOverlays (highlight "1" (renderPage samplePageData)))
    = [true; false].
Proof. vm_compute. repeat split. Qed.

(** ** Cleaning of the collaborator's answer *)

Lemma removeAll_fence_match (s : JSString) :
  removeAll fence (96 :: 96 :: 96 :: s)%N 0 = removeAll fence s 0.
Proof. reflexivity. Qed.

Lemma startsWith_fence (s : JSString) :
  startsWith fence s = true -> exists t, s = (96 :: 96 :: 96 :: t)%N.
Proof.
  unfold fence.
  destruct s as [| a [| b [| c t]]]; cbn [startsWith]; intros H.
  - discriminate H.
  - apply andb_true_iff in H. destruct H as [_ H]. discriminate H.
  - apply andb_true_iff in H. destruct H as [_ H].
    apply andb_true_iff in H. destruct H as [_ H]. discriminate H.
  - apply andb_true_iff in H. destruct H as [Ha H].
    apply andb_true_iff in H. destruct H as [Hb H].
    apply andb_true_iff in H. destruct H as [Hc _].
    apply N.eqb_eq in Ha, Hb, Hc. subst. now exists t.
Qed.

Lemma removeAll_fence_bounded (n : nat) :
  forall s : JSString,
    (List.length s <= n)%nat ->
    fenceFree (removeAll fence s 0) = true /\
    (leadingBackticks (removeAll fence s 0) <= leadingBackticks s)%nat.
Proof.
  induction n as [| n IH]; intros s Hlen.
  - destruct s; [split; [reflexivity | cbn; lia] | cbn in Hlen; lia].
  - destruct s as [| c t]; [split; [reflexivity | cbn; lia] |].
    destruct (startsWith fence (c :: t)) eqn:Hsw.
    + destruct (startsWith_fence _ Hsw) as (t' & E). rewrite E.
      rewrite removeAll_fence_match.
      assert (Hlen' : (List.length t' <= n)%nat).
      { rewrite E in Hlen. cbn in Hlen. lia. }
      destruct (IH t' Hlen') as [Hff Hlead].
      split; [exact Hff |]. cbn. lia.
    + assert (Hlen' : (List.length t <= n)%nat) by (cbn in Hlen; lia).
      destruct (IH t Hlen') as [Hff Hlead].
      assert (E : removeAll fence (c :: t) 0 = c :: removeAll fence t 0).
      { cbn [removeAll]. rewrite Hsw. reflexivity. }
      rewrite E.
      destruct (N.eqb c backtick) eqn:Hc.
      * apply N.eqb_eq in Hc. subst c.
        assert (Ht : (leadingBackticks t <= 1)%nat).
        { destruct t as [| a [| b t']]; cbn; try lia.
          - destruct (a =? backtick)%N; lia.
          - destruct (a =? backtick)%N eqn:Ha; [| lia].
            destruct (b =? backtick)%N eqn:Hb; [| lia].
            apply N.eqb_eq in Ha, Hb. subst. discriminate Hsw. }
        split.
        -- cbn [fenceFree]. rewrite Hff, andb_true_r.
           apply negb_true_iff.
           unfold fence in Hlead |- *.
           destruct (removeAll [96; 96; 96]%N t 0) as [| a [| b r]] eqn:Er;
             cbn [startsWith]; try reflexivity.
           ++ rewrite !andb_false_r. reflexivity.
           ++ destruct (96 =? a)%N eqn:Ha; [| reflexivity].
              destruct (96 =? b)%N eqn:Hb; [| reflexivity].
              apply N.eqb_eq in Ha, Hb. subst. cbn in Hlead. lia.
        -- cbn. lia.
      * split.
        -- cbn [fenceFree]. rewrite Hff, andb_true_r.
           apply negb_true_iff. unfold fence. cbn [startsWith].
           rewrite N.eqb_sym. unfold backtick in Hc. rewrite Hc. reflexivity.
        -- cbn. rewrite Hc. lia.
Qed.

Lemma removeAll_fence_free (s : JSString) :
  fenceFree (removeAll fence s 0) = true.
Proof. apply (removeAll_fence_bounded (List.length s) s). lia. Qed.

Lemma fenceFree_no_occurrence (s : JSString) :
  fenceFree s = true -> forall a b, s <> a ++ fence ++ b.
Proof.
  intros Hff a. revert s Hff.
  induction a as [| x a IH]; intros s Hff b E; subst s.
  - cbn in Hff. discriminate Hff.
  - cbn [app fenceFree] in Hff. apply andb_true_iff in Hff.
    destruct Hff as [_ Hff]. exact (IH _ Hff b eq_refl).
Qed.

Lemma trimStart_suffix (s : JSString) : exists pre, s = pre ++ trimStart s.
Proof.
  induction s as [| c s (pre & IH)]; cbn.
  - exists []. reflexivity.
  - destruct (isJSWhitespace c).
    + exists (c :: pre). cbn. now rewrite <- IH.
    + exists []. reflexivity.
Qed.

Lemma trimEnd_prefix (s : JSString) : exists post, s = trimEnd s ++ post.
Proof.
  unfold trimEnd. destruct (trimStart_suffix (rev s)) as (pre & E).
  exists (rev pre).
  rewrite <- rev_app_distr, <- E. symmetry. apply rev_involutive.
Qed.

Lemma trim_part (s : JSString) : exists pre post, s = pre ++ trim s ++ post.
Proof.
  unfold trim. destruct (trimStart_suffix s) as (pre & E1).
  destruct (trimEnd_prefix (trimStart s)) as (post & E2).
  exists pre, post. now rewrite <- E2.
Qed.

Lemma trimStart_head (s : JSString) (c : N) (rest : JSString) :
  trimStart s = c :: rest -> isJSWhitespace c = false.
Proof.
  induction s as [| x s IH]; cbn; [discriminate |].
  destruct (isJSWhitespace x) eqn:Hx; [exact IH |].
  intros E. injection E as <- _. exact Hx.
Qed.

Lemma trimStart_keeps_last (s : JSString) (c : N) :
  isJSWhitespace c = false -> trimStart (s ++ [c]) = trimStart s ++ [c].
Proof.
  intros Hc. induction s as [| x s IH]; cbn.
  - now rewrite Hc.
  - destruct (isJSWhitespace x); [exact IH | reflexivity].
Qed.

(** X17. The text handed to [JSON.parse] never holds a Markdown fence and
    never begins or ends with white space: whatever the collaborator answers,
    no three backticks in a row are left after the two replacements, and the
    ends are trimmed. *)
Theorem cleanJson_strips_fences (text : option JSString) :
  (forall a b : JSString, cleanJson text <> a ++ fence ++ b) /\
  (forall (c : N) (rest : JSString),
     cleanJson text = c :: rest -> isJSWhitespace c = false) /\
  (forall (c : N) (front : JSString),
     cleanJson text = front ++ [c] -> isJSWhitespace c = false).
Proof.
  unfold cleanJson.
  set (t := match text with Some (c :: rest) => c :: rest
                       | _ => emptyObjectText end).
  set (r := removeAll fence (removeAll jsonFence t 0) 0).
  split; [| split].
  - intros a b E.
    destruct (trim_part r) as (pre & post & Er).
    rewrite E in Er.
    apply (fenceFree_no_occurrence r (removeAll_fence_free _)
             (pre ++ a) (b ++ post)).
    rewrite Er, <- !app_assoc. reflexivity.
  - intros c rest E. unfold trim, trimEnd in E.
    destruct (trimStart r) as [| x u] eqn:Hu; [discriminate E |].
    pose proof (trimStart_head r x u Hu) as Hx.
    assert (Erev : rev (x :: u) = rev u ++ [x]) by reflexivity.
    rewrite Erev, (trimStart_keeps_last _ _ Hx), rev_app_distr in E.
    cbn in E. injection E as <- _. exact Hx.
  - intros c front E. unfold trim, trimEnd in E.
    apply (f_equal (@rev N)) in E.
    rewrite rev_involutive, rev_app_distr in E. cbn in E.
    exact (trimStart_head _ _ _ E).
Qed.

Lemma removeAll_plain (pat' : JSString) (X : JSString) :
  (forall c, In c X -> c <> backtick) ->
  forall tail : JSString,
    removeAll (backtick :: pat') (X ++ tail) 0
    = X ++ removeAll (backtick :: pat') tail 0.
Proof.
  induction X as [| c X IH]; intros Hplain tail; [reflexivity |].
  assert (Hc : N.eqb backtick c = false).
  { apply N.eqb_neq. intros E. apply (Hplain c); [now left | now symmetry]. }
  cbn [app removeAll startsWith]. rewrite Hc. cbn [andb].
  f_equal. apply IH. intros x Hx. apply Hplain. now right.
Qed.

(** X18. An answer without backticks is only trimmed, and an answer wrapped in
    a [```json] ... [```] fence is cleaned to the trimmed text between the
    fences; a missing or empty answer is read as ["{}"]. *)
Theorem cleanJson_unwraps (X : JSString) :
  (forall c, In c X -> c <> backtick) ->
  cleanJson (Some (jsonFence ++ X ++ fence)) = trim X /\
  (X <> [] -> cleanJson (Some X) = trim X) /\
  cleanJson None = emptyObjectText /\
  cleanJson (Some []) = emptyObjectText.
Proof.
  intros Hplain.
  assert (Hj : removeAll jsonFence (X ++ fence) 0 = X ++ fence).
  { unfold jsonFence. change 96%N with backtick at 1.
    rewrite (removeAll_plain _ X Hplain). reflexivity. }
  assert (Hf : removeAll fence (X ++ fence) 0 = X).
  { unfold fence at 1. change 96%N with backtick at 1.
    rewrite (removeAll_plain _ X Hplain). cbn. apply app_nil_r. }
  assert (Hj0 : removeAll jsonFence X 0 = X).
  { rewrite <- (app_nil_r X) at 1. unfold jsonFence.
    change 96%N with backtick at 1.
    rewrite (removeAll_plain _ X Hplain). cbn. apply app_nil_r. }
  assert (Hf0 : removeAll fence X 0 = X).
  { rewrite <- (app_nil_r X) at 1. unfold fence.
    change 96%N with backtick at 1.
    rewrite (removeAll_plain _ X Hplain). cbn. apply app_nil_r. }
  split; [| split; [| split; reflexivity]].
  - change (jsonFence ++ X ++ fence)
      with (96 :: 96 :: 96 :: 106 :: 115 :: 111 :: 110 :: (X ++ fence))%N.
    unfold cleanJson. cbv beta iota zeta.
    change (removeAll jsonFence
              (96 :: 96 :: 96 :: 106 :: 115 :: 111 :: 110 :: X ++ fence)%N 0)
      with (removeAll jsonFence (X ++ fence) 0).
    now rewrite Hj, Hf.
  - intros Hne. unfold cleanJson.
    destruct X as [| c X']; [contradiction |].
    cbv beta iota zeta. now rewrite Hj0, Hf0.
Qed.

(** The answer [```json\n{}\n```] is cleaned to [{}]. *)
Lemma cleanJson_unwraps_witness :
  (forall c, In c [10; 123; 125; 10]%N -> c <> backtick) /\
  cleanJson (Some (jsonFence ++ [10; 123; 125; 10] ++ fence)%N)
  = [123; 125]%N.
Proof.
  assert (H : forall c, In c [10; 123; 125; 10]%N -> c <> backtick).
  { intros c [<- | [<- | [<- | [<- | []]]]]; discriminate. }
  split; [exact H |].
  exact (proj1 (cleanJson_unwraps [10; 123; 125; 10]%N H)).
Defined.

(** A fence cut in two by a tagged fence is removed by the second
    replacement. *)
Example cleanJson_nested_fences :
  cleanJson (Some ([96; 96] ++ jsonFence ++ [96; 123; 125])%N) = [123; 125]%N.
Proof. reflexivity. Qed.

(** ** The Escape key *)

(** X19. The Escape key does what the Cancel button does, although its
    listener belongs to an older render: when the listener's render and the
    current state agree on the committed issues and on the issue under edit,
    whatever the form, the drag, the hover and the selection of the older
    render were, Escape during an edit gives the state of [cancelEdit]
    dispatched now, Escape outside an edit only closes the detail view, and
    any other key changes nothing. *)
Theorem escape_cancels_like_button (key : string) (listener s : State) :
  editingIssueId listener = editingIssueId s ->
  issues listener = issues s ->
  keydown key listener s
  = if String.eqb key "Escape" then
      if truthy (editingIssueId s) then dispatch cancelEdit s
      else setSelectedIssueId None s
    else s.
Proof.
  intros He Hi. unfold keydown, handleEsc, dispatch.
  destruct (String.eqb key "Escape"); [| reflexivity].
  unfold bind, render. cbn [fst snd]. rewrite He.
  destruct (truthy (editingIssueId s)); [| reflexivity].
  unfold cancelEdit, bind, render. cbn [fst snd]. rewrite He, Hi.
  destruct_find Hf; [destruct (isNewUnsaved _) |]; reflexivity.
Qed.

Lemma escape_cancels_like_button_witness :
  editingIssueId sampleEditing = editingIssueId sampleBoxDrag /\
  issues sampleEditing = issues sampleBoxDrag /\
  keydown "Escape" sampleEditing sampleBoxDrag
  = dispatch cancelEdit sampleBoxDrag.
Proof.
  split; [reflexivity |]. split; [reflexivity |].
  exact (escape_cancels_like_button "Escape" sampleEditing sampleBoxDrag
           eq_refl eq_refl).
Defined.

(** ** Export during an edit *)

(** X20. The export is made of the committed issues only: without both
    images nothing is exported, and whatever is drawn, deleted or typed in
    the form of an edit session, the page exported during the session is the
    page exported before it. *)
Theorem export_ignores_buffer
    (designImageSrc liveImageSrc : option string) (s : State)
    (evs : list Event) :
  forallb isBufferEvent evs = true ->
  handleExport designImageSrc liveImageSrc (run s evs)
  = handleExport designImageSrc liveImageSrc s /\
  (truthy designImageSrc && truthy liveImageSrc = false ->
   handleExport designImageSrc liveImageSrc (run s evs) = None).
Proof.
  intros Hall.
  destruct (buffer_events_frame evs s Hall) as [Hi _].
  unfold handleExport. rewrite Hi. split; [reflexivity |].
  intros H. apply andb_false_iff in H.
  destruct H as [H | H]; rewrite H; [reflexivity |].
  cbn [negb]. now rewrite orb_true_r.
Qed.

Lemma export_ignores_buffer_witness :
  forallb isBufferEvent
    [MouseDown sampleUp live; MouseMove sampleUp; SetTitle "Button"] = true /\
  handleExport (Some "design.png"%string) (Some "live.png"%string)
    (run sampleEditing
       [MouseDown sampleUp live; MouseMove sampleUp; SetTitle "Button"])
  = handleExport (Some "design.png"%string) (Some "live.png"%string)
      sampleEditing.
Proof.
  split; [reflexivity |].
  exact (proj1 (export_ignores_buffer (Some "design.png"%string)
                  (Some "live.png"%string) sampleEditing
                  [MouseDown sampleUp live; MouseMove sampleUp;
                   SetTitle "Button"] eq_refl)).
Defined.

(** ** The top-level component *)

Lemma App_invariant_step (s : App.State) (ev : App.Event) :
  App.invariant s -> App.offered s ev = true -> App.invariant (App.step s ev).
Proof.
  unfold App.invariant.
  destruct s as [df lf dp lp r e];
    destruct ev as [file [] result | [] | |];
    cbn; intros (He & Hr & Hf & Hd & Hl) Hoff;
    destruct df, lf, r; cbn in *; try discriminate Hoff;
    intuition congruence.
Qed.

Lemma App_invariant_run (evs : list App.Event) :
  forall s : App.State,
    App.invariant s -> App.offeredAll s evs = true ->
    App.invariant (App.run s evs).
Proof.
  induction evs as [| ev evs IH]; intros s Hinv Hoff; [exact Hinv |].
  cbn [App.offeredAll] in Hoff. apply andb_true_iff in Hoff.
  destruct Hoff as [Hev Hrest].
  cbn [App.run]. apply IH; [now apply App_invariant_step | exact Hrest].
Qed.

Lemma App_initial_invariant : App.invariant App.initial.
Proof. repeat split; try reflexivity; try discriminate; auto. Qed.

(** X21. The error message of [handleStartAnnotation] is never shown: the
    start button is disabled exactly when the handler would set the error,
    so in every state the page can reach [error] is [null]. *)
Theorem start_error_unreachable (evs : list App.Event) :
  App.offeredAll App.initial evs = true ->
  App.error (App.run App.initial evs) = None.
Proof.
  intros Hoff.
  exact (proj1 (App_invariant_run evs App.initial App_initial_invariant Hoff)).
Qed.

Lemma start_error_unreachable_witness :
  App.offeredAll App.initial App.sampleSession = true /\
  App.error (App.run App.initial App.sampleSession) = None.
Proof.
  split; [reflexivity |].
  exact (start_error_unreachable App.sampleSession eq_refl).
Defined.

(** X22. A session always has its two files and the report of a manual
    session: in every state the page can reach, the report is either absent
    or the empty report with score 100, a shown report comes with both
    files, and a preview comes with its file. *)
Theorem session_has_both_files (evs : list App.Event) :
  App.offeredAll App.initial evs = true ->
  let s := App.run App.initial evs in
  (App.report s = None \/ App.report s = Some App.emptyReport) /\
  (App.report s <> None ->
   App.designFile s <> None /\ App.liveFile s <> None) /\
  (truthy (App.designPreview s) = true -> App.designFile s <> None) /\
  (truthy (App.livePreview s) = true -> App.liveFile s <> None).
Proof.
  intros Hoff.
  exact (proj2 (App_invariant_run evs App.initial App_initial_invariant Hoff)).
Qed.

Lemma session_has_both_files_witness :
  App.offeredAll App.initial (firstn 3 App.sampleSession) = true /\
  App.report (App.run App.initial (firstn 3 App.sampleSession))
  = Some App.emptyReport /\
  App.liveFile (App.run App.initial (firstn 3 App.sampleSession)) <> None.
Proof.
  split; [reflexivity |]. split; [reflexivity |].
  pose proof (session_has_both_files (firstn 3 App.sampleSession) eq_refl)
    as H.
  cbv zeta in H. destruct H as (_ & H & _).
  apply H. cbn. discriminate.
Defined.

(** A file that cannot be read leaves a session without its image: the
    report is shown, the preview handed to [ReportDisplay] is [null], and the
    export button downloads nothing. *)
Example unreadable_file_disables_export :
  let s := App.run App.initial (firstn 3 App.sampleSession) in
  App.report s = Some App.emptyReport /\ App.livePreview s = None /\
  handleExport (App.designPreview s) (App.livePreview s)
    (initialState App.emptyReport 0) = None.
Proof. repeat split. Qed.
Lemma belowThreshold_same_point (x y : number) (type : Side) :
  belowThreshold (mkDragStart x y type) (mkPoint x y) = true.
Proof.
  unfold belowThreshold, Qltb. cbn [ds_x ds_y px py].
  assert (Hx : Qabs (x - x) == 0)
    by (setoid_replace (x - x) with 0 by ring; reflexivity).
  assert (Hy : Qabs (y - y) == 0)
    by (setoid_replace (y - y) with 0 by ring; reflexivity).
  apply andb_true_iff.
  split; apply negb_true_iff, not_true_iff_false;
    intros Hle; apply Qle_bool_iff in Hle; lra.
Qed.

(** The moves of an open drag only replace the stored point. *)
Lemma run_moves (s : State) (ds : DragStart) (ms : list MouseEvent) :
  dragStart s = Some ds ->
  forall start : Point,
    run (setCurrentDrag (Some start) s) (map MouseMove ms)
    = setCurrentDrag (Some (lastStored start ms)) s.
Proof.
  intros Hds. induction ms as [| m ms IH]; intros start; [reflexivity |].
  change (run (setCurrentDrag (Some start) s) (map MouseMove (m :: ms)))
    with (run (step (setCurrentDrag (Some start) s) (MouseMove m))
              (map MouseMove ms)).
  assert (E : step (setCurrentDrag (Some start) s) (MouseMove m)
              = setCurrentDrag (Some (mkPoint (clampedX m) (clampedY m))) s).
  { unfold_handlers. cbn. rewrite Hds. reflexivity. }
  rewrite E. apply IH.
Qed.

(** X23. A click on an annotation of the issue under edit reaches the
    component as a press on the surface, the moves of the pointer, a release
    and the click.  The click always deletes; whether the gesture also draws
    is decided by the stored points.  When the press point and the last
    stored point are less than five pixels apart on both axes -- as they are
    when the pointer did not move -- the buffer only loses the annotation at
    the index.  Otherwise the release first appends a new annotation to the
    side, and the click deletes at the index of the longer sequence.  In both
    cases the other side, the committed collection and the edit session are
    as they were and no drag is left open. *)
Theorem click_on_annotation_deletes
    (s : State) (e : MouseEvent) (ms : list MouseEvent) (e' : MouseEvent)
    (type : Side) (index : nat) :
  truthy (editingIssueId s) = true ->
  let x := clientX e - rect_left (currentTargetRect e) in
  let y := clientY e - rect_top (currentTargetRect e) in
  let ds := mkDragStart x y type in
  let cd := lastStored (mkPoint x y) ms in
  let s' := run s (MouseDown e type :: map MouseMove ms
                   ++ [MouseUp e'; DeleteAnnotation type index]) in
  let l := bufferElems type s in
  let drawn := newAnnotation (currentTargetRect e') ds cd
                 (orElse (Partial.annotationType (editForm s)) box) in
  (ms = [] -> belowThreshold ds cd = true) /\
  (belowThreshold ds cd = true ->
   bufferElems type s' = firstn index l ++ skipn (S index) l) /\
  (belowThreshold ds cd = false ->
   bufferElems type s'
   = firstn index (l ++ [drawn]) ++ skipn (S index) (l ++ [drawn])) /\
  bufferElems (otherSide type) s' = bufferElems (otherSide type) s /\
  dragStart s' = None /\
  currentDrag s' = None /\
  hoveredAnnotation s' = None /\
  issues s' = issues s /\
  editingIssueId s' = editingIssueId s.
Proof.
  intros Hed x y ds cd s' l drawn.
  split; [intros ->; apply belowThreshold_same_point |].
  assert (Hdown : step s (MouseDown e type)
                  = setCurrentDrag (Some (mkPoint x y))
                      (setDragStart (Some ds) s)).
  { unfold_handlers. cbn. rewrite Hed. reflexivity. }
  assert (Hrun : s' = step (step (setCurrentDrag (Some cd)
                                    (setDragStart (Some ds) s))
                                 (MouseUp e'))
                           (DeleteAnnotation type index)).
  { unfold s', run. cbn [fold_left]. fold (step s (MouseDown e type)).
    rewrite fold_left_app. cbn [fold_left]. rewrite Hdown.
    fold (run (setCurrentDrag (Some (mkPoint x y)) (setDragStart (Some ds) s))
              (map MouseMove ms)).
    rewrite (run_moves (setDragStart (Some ds) s) ds ms eq_refl).
    reflexivity. }
  clearbody s'. subst s'.
  destruct (belowThreshold ds cd) eqn:Hth.
  - rewrite (handleMouseUp_discarded
               (setCurrentDrag (Some cd) (setDragStart (Some ds) s))
               e' ds cd eq_refl eq_refl Hth).
    split; [intros _; rewrite deleteAnnotation_removes; destruct type;
                      reflexivity |].
    split; [discriminate |].
    destruct type; repeat split.
  - rewrite (handleMouseUp_completed
               (setCurrentDrag (Some cd) (setDragStart (Some ds) s))
               e' ds cd eq_refl eq_refl Hth).
    split; [discriminate |].
    split.
    { intros _. rewrite deleteAnnotation_removes.
      change (ds_type ds) with type.
      rewrite bufferElems_appendAnnotation. destruct type; reflexivity. }
    destruct type; repeat split.
Qed.

Lemma click_on_annotation_deletes_witness :
  truthy (editingIssueId sampleEditing) = true /\
  bufferElems live
    (run sampleEditing
       [MouseDown sampleUp live; MouseUp sampleUp; DeleteAnnotation live 0])
  = [].
Proof.
  split; [reflexivity |].
  destruct (click_on_annotation_deletes sampleEditing sampleUp [] sampleUp
              live 0 eq_refl) as (Hclick & Hdel & _).
  exact (Hdel (Hclick eq_refl)).
Defined.

(** A click whose pointer moves six pixels inside the box draws as well as
    deletes: the buffer ends with the drawn box in place of the clicked
    one. *)
Example moving_click_draws_and_deletes :
  bufferElems live
    (run sampleEditing
       [MouseDown (mkMouseEvent 1230 320 (sampleSurface live)) live;
        MouseMove (mkMouseEvent 1236 320 (sampleSurface live));
        MouseUp (mkMouseEvent 1236 320 (sampleSurface live));
        DeleteAnnotation live 0])
  = [newAnnotation (sampleSurface live) (mkDragStart 400 300 live)
       (mkPoint 406 300) box].
Proof. reflexivity. Qed.
